(** * sysinfo: CPU topology reader and network link inspector

    A shallow embedding of [getCPUInfo] (the CPU reader) and of
    [getNetworkInfo] with its helpers (network.go), followed by the
    properties of the specification that were checked against them.

    Conventions of the embedding:
    - Go [string] is [string]; a Go [map[string]bool] is a [gmap string bool];
    - Go [uint], [uint32], [int8] are [Z] with the wrap-around written out
      where the source converts or negates;
    - a run-time panic is an explicit result ([Panicked]);
    - the operating system (files, sockets, ioctl) is a record of oracles
      over an abstract world that is threaded through the system calls. *)

From Stdlib Require Import ZArith Ascii String List Lia Bool.
From stdpp Require Import base gmap strings list.

Local Open Scope string_scope.
Local Open Scope Z_scope.

(* ===================================================================== *)
(** ** Go run time *)
(* ===================================================================== *)

(** The reasons for which the modelled code can stop with a run-time panic. *)
Inductive panic : Type :=
| IndexOutOfRange (index len : nat)
| NilDereference.

(** Result of running a Go function that has no error result of its own:
    it either returns or panics. *)
Inductive outcome (A : Type) : Type :=
| Returned (a : A)
| Panicked (p : panic).

Arguments Returned {A} a.
Arguments Panicked {A} p.

Definition obind {A B : Type} (m : outcome A) (k : A -> outcome B) : outcome B :=
  match m with
  | Returned a => k a
  | Panicked p => Panicked p
  end.

Notation "x <-! m ;; k" := (obind m (fun x => k))
  (at level 100, m at next level, right associativity).

(** [sl[i]] on a slice: panics when [i] is out of range. *)
Definition index (sl : list string) (i : nat) : outcome string :=
  match sl !! i with
  | Some x => Returned x
  | None => Panicked (IndexOutOfRange i (length sl))
  end.

(** [uint(x)] for a Go [int] [x] on a 64-bit platform. *)
Definition uint_of_int (x : Z) : Z := x mod 2 ^ 64.

(** Go [int] arithmetic: 64-bit two's complement. *)
Definition int_wrap (x : Z) : Z := (x + 2 ^ 63) mod 2 ^ 64 - 2 ^ 63.

(** [int8] arithmetic. *)
Definition int8_wrap (x : Z) : Z := (x + 2 ^ 7) mod 2 ^ 8 - 2 ^ 7.

Definition tab : ascii := "009"%char.
Definition space : ascii := " "%char.

Definition is_digit (c : ascii) : bool :=
  (48 <=? nat_of_ascii c)%nat && (nat_of_ascii c <=? 57)%nat.

Definition digit_val (c : ascii) : Z := Z.of_nat (nat_of_ascii c) - 48.

(* ===================================================================== *)
(** ** Go library functions used by the CPU reader *)
(* ===================================================================== *)

(** *** [reTwoColumns = regexp.MustCompile("\t+: ")] *)

Fixpoint skip_tabs (s : string) : string :=
  match s with
  | String c r => if Ascii.eqb c tab then skip_tabs r else s
  | EmptyString => s
  end.

(** A match of [\t+: ] anchored at the start of [s]: a non-empty run of tabs
    followed by a colon and a space.  The run is consumed whole, since
    nothing after a tab but a colon continues the match.  Returns what
    follows the match. *)
Definition reTwoColumns_prefix (s : string) : option string :=
  match s with
  | String c r =>
      if Ascii.eqb c tab then
        match skip_tabs r with
        | String ":" (String " " rest) => Some rest
        | _ => None
        end
      else None
  | EmptyString => None
  end.

(** The leftmost match: text before it and text after it. *)
Fixpoint reTwoColumns_find (s : string) : option (string * string) :=
  match reTwoColumns_prefix s with
  | Some rest => Some (EmptyString, rest)
  | None =>
      match s with
      | EmptyString => None
      | String c r =>
          match reTwoColumns_find r with
          | Some (before, after) => Some (String c before, after)
          | None => None
          end
      end
  end.

(** [reTwoColumns.Split(s, 2)].  Go's [Split] returns nil only for [n = 0];
    for the empty string it returns one empty field, without a match the
    whole string as the only field, and with a match the text before the
    first match and all the text after it. *)
Definition reTwoColumns_Split2 (s : string) : list string :=
  match s with
  | EmptyString => [EmptyString]
  | _ =>
      match reTwoColumns_find s with
      | Some (before, after) => [before; after]
      | None => [s]
      end
  end.

(** *** [reExtraSpace = regexp.MustCompile(" +")] *)

(** [reExtraSpace.ReplaceAllLiteralString(s, " ")]: every match, a maximal
    run of spaces, is replaced by one space.  [after_space] is the scan
    inside a match whose replacement has been written already. *)
Fixpoint reExtraSpace_ReplaceAll (s : string) : string :=
  match s with
  | EmptyString => EmptyString
  | String c r =>
      if Ascii.eqb c space then String space (after_space r)
      else String c (reExtraSpace_ReplaceAll r)
  end
with after_space (t : string) : string :=
  match t with
  | EmptyString => EmptyString
  | String d u =>
      if Ascii.eqb d space then after_space u
      else String d (reExtraSpace_ReplaceAll u)
  end.

(** *** [strings.Replace(s, "- ", "-", 1)] *)

(** What follows a leading [- ], when [s] starts with it. *)
Definition strip_dash_space (s : string) : option string :=
  match s with
  | String c (String d r) =>
      if Ascii.eqb c "-" && Ascii.eqb d space then Some r else None
  | _ => None
  end.

Fixpoint strings_Replace_dash1 (s : string) : string :=
  match strip_dash_space s with
  | Some r => String "-" r
  | None =>
      match s with
      | EmptyString => EmptyString
      | String c r => String c (strings_Replace_dash1 r)
      end
  end.

(** *** [strconv.ParseInt] and [strconv.ParseUint] in base 10 *)

(** The digits of [s] read in base 10, [None] on a character that is not a
    decimal digit.  The accumulator is unbounded: the callers check the
    range, which is how an overflow becomes an error in Go as well. *)
Fixpoint parse_digits (acc : Z) (s : string) : option Z :=
  match s with
  | EmptyString => Some acc
  | String c r =>
      if is_digit c then parse_digits (10 * acc + digit_val c) r else None
  end.

(** [strconv.ParseUint(s, 10, bitSize)]; [None] is a non-nil error. *)
Definition strconv_ParseUint (s : string) (bitSize : Z) : option Z :=
  match s with
  | EmptyString => None
  | _ =>
      match parse_digits 0 s with
      | Some n => if n <? 2 ^ bitSize then Some n else None
      | None => None
      end
  end.

(** [strconv.ParseInt(s, 10, bitSize)]; [None] is a non-nil error. *)
Definition strconv_ParseInt (s : string) (bitSize : Z) : option Z :=
  match s with
  | EmptyString => None
  | String c r =>
      let neg := Ascii.eqb c "-" in
      let body := if Ascii.eqb c "+" || Ascii.eqb c "-" then r else s in
      match body with
      | EmptyString => None
      | _ =>
          match parse_digits 0 body with
          | Some un =>
              if neg
              then (if un <=? 2 ^ (bitSize - 1) then Some (- un) else None)
              else (if un <? 2 ^ (bitSize - 1) then Some un else None)
          | None => None
          end
      end
  end.

(** *** [reCacheSize = regexp.MustCompile(`^(\d+) KB$`)] *)

(** The longest prefix of decimal digits, and the rest. *)
Fixpoint span_digits (s : string) : string * string :=
  match s with
  | String c r =>
      if is_digit c
      then let '(d, rest) := span_digits r in (String c d, rest)
      else (EmptyString, s)
  | EmptyString => (EmptyString, EmptyString)
  end.

(** [reCacheSize.FindStringSubmatch(s)]: [None] is nil, otherwise the whole
    match followed by the capture group. *)
Definition reCacheSize_FindStringSubmatch (s : string) : option (list string) :=
  let '(d, rest) := span_digits s in
  match d with
  | EmptyString => None
  | _ => if String.eqb rest " KB" then Some [s; d] else None
  end.

(* ===================================================================== *)
(** ** Data model *)
(* ===================================================================== *)

Module CPU.
Record t : Type := mk {
  Vendor : string;
  Model : string;
  Speed : Z;     (* CPU clock rate in MHz *)
  Cache : Z;     (* CPU cache size in KB *)
  Cpus : Z;      (* number of physical CPUs *)
  Cores : Z;     (* number of physical CPU cores *)
  Threads : Z;   (* number of logical (HT) CPU cores *)
  Flags : string
}.
Definition zero : t := mk "" "" 0 0 0 0 0 "".
Definition setVendor (v : string) (c : t) : t :=
  mk v (Model c) (Speed c) (Cache c) (Cpus c) (Cores c) (Threads c) (Flags c).
Definition setModel (v : string) (c : t) : t :=
  mk (Vendor c) v (Speed c) (Cache c) (Cpus c) (Cores c) (Threads c) (Flags c).
Definition setSpeed (v : Z) (c : t) : t :=
  mk (Vendor c) (Model c) v (Cache c) (Cpus c) (Cores c) (Threads c) (Flags c).
Definition setCache (v : Z) (c : t) : t :=
  mk (Vendor c) (Model c) (Speed c) v (Cpus c) (Cores c) (Threads c) (Flags c).
Definition setCpus (v : Z) (c : t) : t :=
  mk (Vendor c) (Model c) (Speed c) (Cache c) v (Cores c) (Threads c) (Flags c).
Definition setCores (v : Z) (c : t) : t :=
  mk (Vendor c) (Model c) (Speed c) (Cache c) (Cpus c) v (Threads c) (Flags c).
Definition setThreads (v : Z) (c : t) : t :=
  mk (Vendor c) (Model c) (Speed c) (Cache c) (Cpus c) (Cores c) v (Flags c).
Definition setFlags (v : string) (c : t) : t :=
  mk (Vendor c) (Model c) (Speed c) (Cache c) (Cpus c) (Cores c) (Threads c) v.
End CPU.

(** The part of the node information that [getCPUInfo] reads. *)
Module Node.
Record t : Type := mk {
  Hostname : string;
  Hypervisor : string
}.
End Node.

(** [SysInfo], restricted to the fields the two readers touch.  The network
    list is added by [getNetworkInfo] below, which keeps its own slice. *)
Record SysInfo : Type := mkSysInfo {
  siNode : Node.t;
  siCPU : CPU.t
}.

Definition withCPU (si : SysInfo) (c : CPU.t) : SysInfo :=
  mkSysInfo (siNode si) c.

(* ===================================================================== *)
(** ** The CPU reader: [getCPUInfo] *)
(* ===================================================================== *)

(** What the host shows to [getCPUInfo]: [runtime.NumCPU()], and the file
    named by [cpuInfo].  [None] is a failed [os.Open]; otherwise the lines
    that [bufio.Scanner] delivers before it stops, and whether it stopped
    with an error ([s.Err() != nil]) rather than at the end of the file. *)
Record CPUHost : Type := mkCPUHost {
  NumCPU : nat;
  cpuInfoFile : option (list string * bool)
}.

(** The local variables of [getCPUInfo] that live across loop iterations,
    with the CPU record being filled in. *)
Record scanState : Type := mkScan {
  cpu : gmap string bool;
  core : gmap string bool;
  cpuCount : Z;
  coreCount : Z;
  cpuID : string;
  cpuFacts : CPU.t
}.

Definition scanInit (c : CPU.t) : scanState := mkScan ∅ ∅ 0 0 "" c.

Definition withFacts (st : scanState) (c : CPU.t) : scanState :=
  mkScan (cpu st) (core st) (cpuCount st) (coreCount st) (cpuID st) c.

(** [fmt.Sprintf("%s/%s", cpuID, coreID)] *)
Definition compositeKey (cpuID coreID : string) : string :=
  cpuID +:+ "/" +:+ coreID.

Section TopologyReader.

(** [strconv.ParseFloat(s, 32)] followed by the conversion [uint(i)]:
    floating point is left abstract; [None] is a parse error. *)
Variable ParseFloat_uint : string -> option Z.

(** The body of the [for s.Scan()] loop on the line [text]. *)
Definition scanLine (st : scanState) (text : string) : outcome scanState :=
  let sl := reTwoColumns_Split2 text in
  (* [sl != nil] holds for every result of [Split(_, 2)] *)
  key <-! index sl 0 ;;
  if String.eqb key "processor" then
    v <-! index sl 1 ;;
    Returned (mkScan (<[v := true]> (cpu st)) (core st)
                     (int_wrap (cpuCount st + 1)) (coreCount st) v
                     (cpuFacts st))
  else if String.eqb key "core id" then
    v <-! index sl 1 ;;
    Returned (mkScan (cpu st) (<[compositeKey (cpuID st) v := true]> (core st))
                     (cpuCount st) (coreCount st) (cpuID st) (cpuFacts st))
  else if String.eqb key "cpu cores" then
    v <-! index sl 1 ;;
    let n := match strconv_ParseInt v 8 with
             | Some c => int_wrap (coreCount st + c)
             | None => coreCount st
             end in
    Returned (mkScan (cpu st) (core st) (cpuCount st) (int_wrap (n + 1))
                     (cpuID st) (cpuFacts st))
  else if String.eqb key "vendor_id" then
    if String.eqb (CPU.Vendor (cpuFacts st)) "" then
      v <-! index sl 1 ;;
      Returned (withFacts st (CPU.setVendor v (cpuFacts st)))
    else Returned st
  else if String.eqb key "flags" then
    if String.eqb (CPU.Flags (cpuFacts st)) "" then
      v <-! index sl 1 ;;
      Returned (withFacts st (CPU.setFlags v (cpuFacts st)))
    else Returned st
  else if String.eqb key "model name" then
    if String.eqb (CPU.Model (cpuFacts st)) "" then
      v <-! index sl 1 ;;
      let model := reExtraSpace_ReplaceAll v in
      Returned (withFacts st
                  (CPU.setModel (strings_Replace_dash1 model) (cpuFacts st)))
    else Returned st
  else if String.eqb key "cpu MHz" then
    if CPU.Speed (cpuFacts st) =? 0 then
      v <-! index sl 1 ;;
      match ParseFloat_uint v with
      | Some i => Returned (withFacts st (CPU.setSpeed i (cpuFacts st)))
      | None => Returned st
      end
    else Returned st
  else if String.eqb key "cache size" then
    if CPU.Cache (cpuFacts st) =? 0 then
      v <-! index sl 1 ;;
      match reCacheSize_FindStringSubmatch v with
      | Some m =>
          m1 <-! index m 1 ;;
          match strconv_ParseUint m1 64 with
          | Some cache => Returned (withFacts st (CPU.setCache cache (cpuFacts st)))
          | None => Returned st
          end
      | None => Returned st
      end
    else Returned st
  else Returned st.

(** The whole loop. *)
Fixpoint scanLines (st : scanState) (lines : list string) : outcome scanState :=
  match lines with
  | [] => Returned st
  | text :: rest => st' <-! scanLine st text ;; scanLines st' rest
  end.

(** [si.Node.Hostname == "" || si.Node.Hypervisor != ""] *)
Definition virtualized (n : Node.t) : bool :=
  String.eqb (Node.Hostname n) "" || negb (String.eqb (Node.Hypervisor n) "").

(** [func (si *SysInfo) getCPUInfo()]: the receiver after the call. *)
Definition getCPUInfo (host : CPUHost) (si : SysInfo) : outcome SysInfo :=
  let c0 := CPU.setThreads (Z.of_nat (NumCPU host)) (siCPU si) in
  match cpuInfoFile host with
  | None => Returned (withCPU si c0)
  | Some (lines, scanErr) =>
      st <-! scanLines (scanInit c0) lines ;;
      if scanErr then Returned (withCPU si (cpuFacts st))
      else
        let c1 :=
          if virtualized (siNode si)
          then CPU.setCores (uint_of_int (coreCount st))
                 (CPU.setCpus (uint_of_int (cpuCount st)) (cpuFacts st))
          else cpuFacts st in
        let c2 := CPU.setCpus (Z.of_nat (size (cpu st))) c1 in
        let c3 := CPU.setCores (Z.of_nat (size (core st))) c2 in
        Returned (withCPU si c3)
  end.

End TopologyReader.

(* ===================================================================== *)
(** ** network.go: data model *)
(* ===================================================================== *)

Module NetworkDevice.
Record t : Type := mk {
  Name : string;
  Driver : string;
  IpAddresses : list string;
  MACAddress : string;
  Port : string;
  Speed : Z      (* device max supported speed in Mbps *)
}.
Definition setDriver (v : string) (d : t) : t :=
  mk (Name d) v (IpAddresses d) (MACAddress d) (Port d) (Speed d).
End NetworkDevice.

(** [struct ethtool_cmd], the buffer of the legacy query. *)
Module ethtool_cmd.
Record t : Type := mk {
  Cmd : Z;
  Supported : Z;
  Advertising : Z;
  Speed : Z;
  Duplex : Z;
  Port : Z;
  PhyAddress : Z;
  Transceiver : Z;
  Autoneg : Z;
  MdioSupport : Z;
  Maxtxpkt : Z;
  Maxrxpkt : Z;
  SpeedHi : Z;
  EthTpMdix : Z;
  Reserved2 : Z;
  LpAdvertising : Z;
  Reserved : list Z
}.
Definition zero : t := mk 0 0 0 0 0 0 0 0 0 0 0 0 0 0 0 0 [0; 0].
Definition setCmd (v : Z) (e : t) : t :=
  mk v (Supported e) (Advertising e) (Speed e) (Duplex e) (Port e)
     (PhyAddress e) (Transceiver e) (Autoneg e) (MdioSupport e) (Maxtxpkt e)
     (Maxrxpkt e) (SpeedHi e) (EthTpMdix e) (Reserved2 e) (LpAdvertising e)
     (Reserved e).
End ethtool_cmd.

(** [ethtoolLinkSettingType], the buffer of the modern query. *)
Module ethtoolLinkSettingType.
Record t : Type := mk {
  Cmd : Z;
  Speed : Z;
  Duplex : Z;
  Port : Z;
  PhyAddress : Z;
  Autoneg : Z;
  MdioSupport : Z;
  EthTpMdix : Z;
  EthTpMdixCtrl : Z;
  LinkModeMasksNwords : Z;   (* int8 *)
  Transceiver : Z;
  Reserved1 : list Z;
  Reserved : list Z
}.
Definition zero : t :=
  mk 0 0 0 0 0 0 0 0 0 0 0 [0; 0; 0] [0; 0; 0; 0; 0; 0; 0].
Definition setCmd (v : Z) (e : t) : t :=
  mk v (Speed e) (Duplex e) (Port e) (PhyAddress e) (Autoneg e)
     (MdioSupport e) (EthTpMdix e) (EthTpMdixCtrl e) (LinkModeMasksNwords e)
     (Transceiver e) (Reserved1 e) (Reserved e).
Definition setLinkModeMasksNwords (v : Z) (e : t) : t :=
  mk (Cmd e) (Speed e) (Duplex e) (Port e) (PhyAddress e) (Autoneg e)
     (MdioSupport e) (EthTpMdix e) (EthTpMdixCtrl e) v
     (Transceiver e) (Reserved1 e) (Reserved e).
End ethtoolLinkSettingType.

(** The errors that [getSupportedWithEthtoolGLinkSetting] builds with
    [fmt.Errorf], by the value each message is formatted from. *)
Inductive error : Type :=
| ErrSocket
| ErrNwordsCheck (nwords : Z)
| ErrGLinkSettingMask (errno : Z)
| ErrGLinkSetting (errno : Z).

(** A [net.Addr] value, by the results of its two methods. *)
Record Addr : Type := mkAddr {
  Addr_Network : string;
  Addr_String : string
}.

(** A [net.Interface]. *)
Record Interface : Type := mkInterface {
  Interface_Index : Z;
  Interface_Name : string
}.

(** The operating system as [getNetworkInfo] meets it.  The file system and
    the interface table are only read by the code and are taken as fixed
    during one enumeration; sockets and the [SIOCETHTOOL] ioctl act on a
    world that is threaded through the calls, so that every call may answer
    differently.  An ioctl is given the descriptor, the 16 bytes of
    [ifr.Name] and the buffer [ifr.Data] points to, and answers with an
    errno and the buffer as the kernel left it.
    [os_Stat] is not called by the code: it tells whether a path resolves
    when links are followed, which is what makes a symbolic link dangle.
    [slurpFile] belongs to another file of the package; it reads a file
    and returns its content, empty when it cannot be read. *)
Record OS (World : Type) : Type := mkOS {
  ioutil_ReadDir : string -> option (list string);
  os_Readlink : string -> option string;
  os_Stat : string -> bool;
  slurpFile : string -> string;
  net_InterfaceByName : string -> option Interface;
  net_interfaceAddrs : Interface -> option (list Addr);
  syscall_Socket : World -> option Z * World;
  syscall_Close : World -> Z -> World;
  ioctl_GLINKSETTINGS :
    World -> Z -> string -> ethtoolLinkSettingType.t ->
    (Z * ethtoolLinkSettingType.t) * World;
  ioctl_GSET :
    World -> Z -> string -> ethtool_cmd.t -> (Z * ethtool_cmd.t) * World
}.

Arguments ioutil_ReadDir {World} _ _.
Arguments os_Readlink {World} _ _.
Arguments os_Stat {World} _ _.
Arguments slurpFile {World} _ _.
Arguments net_InterfaceByName {World} _ _.
Arguments net_interfaceAddrs {World} _ _.
Arguments syscall_Socket {World} _ _.
Arguments syscall_Close {World} _ _ _.
Arguments ioctl_GLINKSETTINGS {World} _ _ _ _ _.
Arguments ioctl_GSET {World} _ _ _ _ _.

(* ===================================================================== *)
(** ** Go library functions used by network.go *)
(* ===================================================================== *)

(** [strings.TrimRight(s, "/")]: all trailing slashes are removed. *)
Fixpoint strings_TrimRight_slash (s : string) : string :=
  match s with
  | EmptyString => EmptyString
  | String c r =>
      match strings_TrimRight_slash r with
      | EmptyString => if Ascii.eqb c "/" then EmptyString else String c EmptyString
      | r' => String c r'
      end
  end.

Fixpoint has_slash (s : string) : bool :=
  match s with
  | EmptyString => false
  | String c r => Ascii.eqb c "/" || has_slash r
  end.

(** What follows the last slash of [s]; [s] itself without a slash. *)
Fixpoint after_last_slash (s : string) : string :=
  match s with
  | EmptyString => EmptyString
  | String c r =>
      if has_slash r then after_last_slash r
      else if Ascii.eqb c "/" then r else s
  end.

(** [path.Base] *)
Definition path_Base (p : string) : string :=
  match p with
  | EmptyString => "."
  | _ =>
      match after_last_slash (strings_TrimRight_slash p) with
      | EmptyString => "/"
      | b => b
      end
  end.

(** [path.Join] on elements that are clean already: the non-empty elements
    separated by slashes.  The paths joined here are the fixed directory, the
    name of one of its entries and fixed names, on which the final
    [path.Clean] changes nothing. *)
Fixpoint path_Join (elems : list string) : string :=
  match elems with
  | [] => EmptyString
  | e :: rest =>
      match e, path_Join rest with
      | EmptyString, j => j
      | _, EmptyString => e
      | _, j => e +:+ "/" +:+ j
      end
  end.

(** [ifr.Name] after [copy(ifr.Name[:], name+"\000")]: the first 16 bytes of
    the name and its terminator, in an array of 16 zero bytes. *)
Fixpoint fill16 (n : nat) (s : string) : string :=
  match n with
  | O => EmptyString
  | S m =>
      match s with
      | EmptyString => String zero (fill16 m EmptyString)
      | String c r => String c (fill16 m r)
      end
  end.

Definition ifr_Name (name : string) : string :=
  fill16 16 (name +:+ String zero EmptyString).

(* ===================================================================== *)
(** ** network.go: decoding tables *)
(* ===================================================================== *)

(** The body of the [range] loop of [getPortType], from index [i] on. *)
Fixpoint getPortType_loop (supp : Z) (i : nat) (labels : list string)
    (port : string) : string :=
  match labels with
  | [] => port
  | p :: rest =>
      let port' :=
        if Z.land supp (Z.shiftl 1 (Z.of_nat i + 7)) >? 0
        then port +:+ (p +:+ "/") else port in
      getPortType_loop supp (S i) rest port'
  end.

Definition getPortType (supp : Z) : string :=
  strings_TrimRight_slash
    (getPortType_loop supp 0 ["tp"; "aui"; "mii"; "fibre"; "bnc"] "").

Definition getPortTypeForGLinkSetting (supp : Z) : string :=
  if supp =? 0x00 then "twisted pair"
  else if supp =? 0x01 then "AUI"
  else if supp =? 0x02 then "media-independent"
  else if supp =? 0x03 then "fibre"
  else if supp =? 0x04 then "BNC"
  else if supp =? 0x05 then "direct attach"
  else if supp =? 0xef then "none"
  else if supp =? 0xff then "other"
  else "".

Definition getMaxSpeed (supp : Z) : Z :=
  if Z.land supp 0x78000000 >? 0 then 56000
  else if Z.land supp 0x07800000 >? 0 then 40000
  else if Z.land supp 0x00600000 >? 0 then 20000
  else if Z.land supp 0x001c1000 >? 0 then 10000
  else if Z.land supp 0x00008000 >? 0 then 2500
  else if Z.land supp 0x00020030 >? 0 then 1000
  else if Z.land supp 0x0000000c >? 0 then 100
  else if Z.land supp 0x00000003 >? 0 then 10
  else 0.

(* ===================================================================== *)
(** ** network.go: the two queries and the enumeration *)
(* ===================================================================== *)

Definition GSET : Z := 0x1.
Definition GLINKSETTING : Z := 0x0000004c.

Section LinkInspector.

Context {World : Type} (os : OS World).

(** [func getSupported(name string) uint32] *)
Definition getSupported (w : World) (name : string) : Z * World :=
  match syscall_Socket os w with
  | (None, w1) => (0, w1)
  | (Some fd, w1) =>
      let ethtool := ethtool_cmd.setCmd GSET ethtool_cmd.zero in
      let '((errno, ethtool'), w2) :=
        ioctl_GSET os w1 fd (ifr_Name name) ethtool in
      let w3 := syscall_Close os w2 fd in
      if errno =? 0 then (ethtool_cmd.Supported ethtool', w3) else (0, w3)
  end.

(** [func getSupportedWithEthtoolGLinkSetting(name string)]: the pointer
    result ([None] is nil) and the error result, as Go returns them. *)
Definition getSupportedWithEthtoolGLinkSetting (w : World) (name : string)
  : (option ethtoolLinkSettingType.t * option error) * World :=
  match syscall_Socket os w with
  | (None, w1) => ((None, Some ErrSocket), w1)
  | (Some fd, w1) =>
      let req :=
        ethtoolLinkSettingType.setCmd GLINKSETTING ethtoolLinkSettingType.zero in
      let '((errno, r1), w2) :=
        ioctl_GLINKSETTINGS os w1 fd (ifr_Name name) req in
      if errno =? 0 then
        let nwords := ethtoolLinkSettingType.LinkModeMasksNwords r1 in
        if (0 <=? nwords) || negb (ethtoolLinkSettingType.Cmd r1 =? 0x0000004c)
        then ((None, Some (ErrNwordsCheck nwords)), syscall_Close os w2 fd)
        else
          let r1' :=
            ethtoolLinkSettingType.setLinkModeMasksNwords
              (int8_wrap (- nwords)) r1 in
          let '((errno2, r2), w3) :=
            ioctl_GLINKSETTINGS os w2 fd (ifr_Name name) r1' in
          if errno2 =? 0
          then ((Some r2, None), syscall_Close os w3 fd)
          else ((None, Some (ErrGLinkSettingMask errno2)),
                syscall_Close os w3 fd)
      else ((None, Some (ErrGLinkSetting errno)), syscall_Close os w2 fd)
  end.

Definition sysClassNet : string := "/sys/class/net".

(** [byNameInterface.Addrs()]: the method answers a nil receiver with an
    error instead of dereferencing it. *)
Definition Interface_Addrs (ifi : option Interface) : option (list Addr) :=
  match ifi with
  | None => None
  | Some i => net_interfaceAddrs os i
  end.

(** One iteration of the loop of [getNetworkInfo] on the entry [name]:
    [None] is the [continue], otherwise the device that is appended. *)
Definition deviceFacts (w : World) (name : string)
  : outcome (option NetworkDevice.t * World) :=
  let fullpath := path_Join [sysClassNet; name] in
  match os_Readlink os fullpath with
  | None => Returned (None, w)
  | Some _ =>
      let '((gLinkSetting, err), w1) :=
        getSupportedWithEthtoolGLinkSetting w name in
      res <-!
        match err with
        | Some _ =>
            let '(supp, w2) := getSupported w1 name in
            Returned (getPortType supp, getMaxSpeed supp, w2)
        | None =>
            match gLinkSetting with
            | Some g =>
                Returned
                  (getPortTypeForGLinkSetting (ethtoolLinkSettingType.Port g),
                   ethtoolLinkSettingType.Speed g, w1)
            | None => Panicked NilDereference
            end
        end ;;
      let '(portType, maxSpeed, w2) := res in
      let byNameInterface := net_InterfaceByName os name in
      let deviceAddresses :=
        match err with
        | None =>
            match Interface_Addrs byNameInterface with
            | Some addresses => map Addr_String addresses
            | None => []
            end
        | Some _ => []
        end in
      let device :=
        NetworkDevice.mk name "" deviceAddresses
          (slurpFile os (path_Join [fullpath; "address"]))
          portType maxSpeed in
      let device :=
        match os_Readlink os (path_Join [fullpath; "device"; "driver"]) with
        | Some driver => NetworkDevice.setDriver (path_Base driver) device
        | None => device
        end in
      Returned (Some device, w2)
  end.

(** The [for _, link := range devices] loop, appending to [network]. *)
Fixpoint enumerate (w : World) (devices : list string)
    (network : list NetworkDevice.t)
  : outcome (list NetworkDevice.t * World) :=
  match devices with
  | [] => Returned (network, w)
  | name :: rest =>
      r <-! deviceFacts w name ;;
      match r with
      | (None, w') => enumerate w' rest network
      | (Some device, w') => enumerate w' rest (network ++ [device])
      end
  end.

(** [func (si *SysInfo) getNetworkInfo()]: [si.Network] after the call,
    given [si.Network] before it; [None] is the nil slice. *)
Definition getNetworkInfo (w : World) (network : option (list NetworkDevice.t))
  : outcome (option (list NetworkDevice.t) * World) :=
  match ioutil_ReadDir os sysClassNet with
  | None => Returned (network, w)
  | Some devices =>
      r <-! enumerate w devices [] ;;
      Returned (Some (fst r), snd r)
  end.

End LinkInspector.

(* ===================================================================== *)
(** ** The specification's vocabulary *)
(* ===================================================================== *)

(** *** Record streams *)

(** A record line [key<TAB>+: value]. *)
Definition line (key value : string) : string :=
  key +:+ String tab ": " +:+ value.

(** The key and the value of a line that has the separator. *)
Definition field (text : string) : option (string * string) :=
  match reTwoColumns_Split2 text with
  | [k; v] => Some (k, v)
  | _ => None
  end.

(** The values of the processor-index lines, in stream order. *)
Fixpoint processorIDs (lines : list string) : list string :=
  match lines with
  | [] => []
  | text :: rest =>
      match field text with
      | Some (k, v) =>
          if String.eqb k "processor" then v :: processorIDs rest
          else processorIDs rest
      | None => processorIDs rest
      end
  end.



(** The keys that [getCPUInfo] recognises. *)
Definition recognised (k : string) : bool :=
  String.eqb k "processor" || String.eqb k "core id" || String.eqb k "cpu cores"
  || String.eqb k "vendor_id" || String.eqb k "flags" || String.eqb k "model name"
  || String.eqb k "cpu MHz" || String.eqb k "cache size".

(** A line is regular when it has the separator or, without one, is not
    exactly one of the recognised keys. *)
Definition regular (text : string) : bool :=
  match reTwoColumns_Split2 text with
  | [k] => negb (recognised k)
  | _ => true
  end.

(** A host whose record stream, when there is one, has regular lines only. *)
Definition regularHost (host : CPUHost) : bool :=
  match cpuInfoFile host with
  | None => true
  | Some (lines, _) => forallb regular lines
  end.

(** *** Model strings *)

Fixpoint spaces (n : nat) : string :=
  match n with
  | O => EmptyString
  | S m => String space (spaces m)
  end.

Definition startsWithSpace (s : string) : Prop :=
  exists r, s = String space r.

(** [collapsed s o]: [o] is [s] with every maximal run of spaces replaced by
    one space and every other character kept. *)
Inductive collapsed : string -> string -> Prop :=
| collapsed_nil : collapsed "" ""
| collapsed_char c r r' :
    c <> space -> collapsed r r' -> collapsed (String c r) (String c r')
| collapsed_run n r r' :
    ~ startsWithSpace r -> collapsed r r' ->
    collapsed (spaces (S n) +:+ r) (String space r').

(** [pat] occurs in [s] after [before]. *)
Definition occursAt (pat s before : string) : Prop :=
  exists after, s = before +:+ pat +:+ after.

(** [firstReplaced old new s o]: [o] is [s] with the first occurrence of
    [old] replaced by [new], and [s] itself when [old] does not occur. *)
Definition firstReplaced (old new s o : string) : Prop :=
  (exists before after,
      s = before +:+ old +:+ after /\
      (forall b, occursAt old s b -> (String.length before <= String.length b)%nat) /\
      o = before +:+ new +:+ after)
  \/ ((forall b, ~ occursAt old s b) /\ o = s).

(** *** Cache sizes *)

Fixpoint allDigits (s : string) : bool :=
  match s with
  | EmptyString => true
  | String c r => is_digit c && allDigits r
  end.


(** The form [<digits> KB] with digits [d]. *)
Definition kbForm (v d : string) : Prop :=
  d <> "" /\ allDigits d = true /\ v = d +:+ " KB".

(** *** Decoding tables *)

Definition portBits : list (Z * string) :=
  [(7, "tp"); (8, "aui"); (9, "mii"); (10, "fibre"); (11, "bnc")].

(** The labels of the bits of [supp] that are set, in table order, with a
    slash between consecutive labels. *)
Definition portLabel (supp : Z) : string :=
  String.concat "/"
    (List.map snd (List.filter (fun e => Z.testbit supp (fst e)) portBits)).

Definition speedTests : list (Z * Z) :=
  [(0x78000000, 56000); (0x07800000, 40000); (0x00600000, 20000);
   (0x001c1000, 10000); (0x00008000, 2500); (0x00020030, 1000);
   (0x0000000c, 100); (0x00000003, 10)].

(** The speed of the first test of the table that [supp] matches. *)
Definition firstSpeed (supp : Z) : Z :=
  match List.find (fun e => negb (Z.land supp (fst e) =? 0)) speedTests with
  | Some e => snd e
  | None => 0
  end.

(** *** Device directories *)

Section Links.
Context {World : Type} (os : OS World).

Definition devicePath (name : string) : string := path_Join [sysClassNet; name].




(** The link of the entry can be read. *)
Definition readable (name : string) : bool :=
  match os_Readlink os (devicePath name) with
  | Some _ => true
  | None => false
  end.

(** The host's interface-address lookup by name: the string form of every
    address of the interface, and no address when the lookup fails. *)
Definition lookupAddresses (name : string) : list string :=
  match net_InterfaceByName os name with
  | Some i =>
      match net_interfaceAddrs os i with
      | Some addresses => List.map Addr_String addresses
      | None => []
      end
  | None => []
  end.
End Links.

(* ===================================================================== *)
(** ** Concrete hosts *)
(* ===================================================================== *)

(** A float parser that rejects everything: the claims do not depend on it. *)
Definition noFloat : string -> option Z := fun _ => None.

Definition bareMetal : Node.t := Node.mk "node1" "".
Definition guest : Node.t := Node.mk "node1" "kvm".

(** Two blocks that repeat processor index 0. *)
Definition repeatedBlocks : list string :=
  [line "processor" "0"; line "core id" "0"; line "cpu cores" "1";
   line "processor" "0"; line "core id" "0"; line "cpu cores" "1"].

(** Two processors with core id 0 each. *)
Definition twoProcessors : list string :=
  [line "processor" "0"; line "model name" "Intel(R)  Xeon(R)   CPU E5-  2680";
   line "cache size" "30720 KB"; line "core id" "0"; line "cpu cores" "1";
   line "processor" "1"; line "core id" "0"].

(** A model-name line with two tabs before the colon. *)
Definition xeonModel : string := "Intel(R)  Xeon(R)   CPU E5-  2680 - v3".
Definition xeonLine : string :=
  "model name" +:+ String tab (String tab ": ") +:+ xeonModel.

(** Cache-size lines. *)
Definition cacheLine (v : string) : string :=
  "cache size" +:+ String tab ": " +:+ v.


(** A description of one entry of the device directory and of the answers
    the kernel gives for it. *)
Record testDevice : Type := mkTestDevice {
  tdName : string;
  tdLink : option string;        (* the link target, for a symbolic link *)
  tdResolves : bool;             (* the target exists *)
  tdGLink : ethtoolLinkSettingType.t -> Z * ethtoolLinkSettingType.t;
  tdGSet : Z * Z;                (* errno and supported mask *)
  tdAddrs : option (list Addr);  (* None: no such interface *)
  tdMAC : string;
  tdDriver : option string
}.

Fixpoint findDevice (p : testDevice -> bool) (ds : list testDevice)
    : option testDevice :=
  match ds with
  | [] => None
  | d :: rest => if p d then Some d else findDevice p rest
  end.

(** A host with the given device directory.  The world counts the sockets
    opened so far; descriptor 3 is handed out every time. *)
Definition testOS (ds : list testDevice) : OS nat :=
  {| ioutil_ReadDir := fun p =>
       if String.eqb p "/sys/class/net" then Some (List.map tdName ds) else None;
     os_Readlink := fun p =>
       match findDevice (fun d => String.eqb p (path_Join ["/sys/class/net"; tdName d])) ds with
       | Some d => tdLink d
       | None =>
           match findDevice (fun d => String.eqb p
                    (path_Join ["/sys/class/net"; tdName d; "device"; "driver"])) ds with
           | Some d => tdDriver d
           | None => None
           end
       end;
     os_Stat := fun p =>
       match findDevice (fun d => String.eqb p (path_Join ["/sys/class/net"; tdName d])) ds with
       | Some d => tdResolves d
       | None => false
       end;
     slurpFile := fun p =>
       match findDevice (fun d => String.eqb p
                (path_Join ["/sys/class/net"; tdName d; "address"])) ds with
       | Some d => tdMAC d
       | None => ""
       end;
     net_InterfaceByName := fun n =>
       match findDevice (fun d => String.eqb n (tdName d)) ds with
       | Some d => match tdAddrs d with
                   | Some _ => Some (mkInterface 1 n)
                   | None => None
                   end
       | None => None
       end;
     net_interfaceAddrs := fun i =>
       match findDevice (fun d => String.eqb (Interface_Name i) (tdName d)) ds with
       | Some d => tdAddrs d
       | None => None
       end;
     syscall_Socket := fun w => (Some 3, S w);
     syscall_Close := fun w _ => w;
     ioctl_GLINKSETTINGS := fun w _ n req =>
       match findDevice (fun d => String.eqb n (ifr_Name (tdName d))) ds with
       | Some d => (tdGLink d req, w)
       | None => ((19, req), w)
       end;
     ioctl_GSET := fun w _ n req =>
       match findDevice (fun d => String.eqb n (ifr_Name (tdName d))) ds with
       | Some d => ((fst (tdGSet d),
                     ethtool_cmd.mk (ethtool_cmd.Cmd req) (snd (tdGSet d))
                       0 0 0 0 0 0 0 0 0 0 0 0 0 0 [0; 0]), w)
       | None => ((19, req), w)
       end |}.

(** A kernel without the modern query: errno 95, buffer untouched. *)
Definition legacyOnly (req : ethtoolLinkSettingType.t)
    : Z * ethtoolLinkSettingType.t := (95, req).

(** A kernel with the modern query: the handshake answers with the negated
    word count, the second call with the link settings. *)
Definition modern (port speed : Z) (req : ethtoolLinkSettingType.t)
    : Z * ethtoolLinkSettingType.t :=
  if ethtoolLinkSettingType.LinkModeMasksNwords req =? 0
  then (0, ethtoolLinkSettingType.setLinkModeMasksNwords (-3) req)
  else (0, ethtoolLinkSettingType.mk GLINKSETTING speed 1 port 0 1 0 0 0 3 0
             [0; 0; 0] [0; 0; 0; 0; 0; 0; 0]).

(** A kernel that answers the handshake with success and a word count that
    is not negative. *)
Definition noHandshake (req : ethtoolLinkSettingType.t)
    : Z * ethtoolLinkSettingType.t :=
  (0, ethtoolLinkSettingType.setLinkModeMasksNwords 3 req).

Definition addrs0 : list Addr :=
  [mkAddr "ip+net" "192.0.2.10/24"; mkAddr "ip+net" "fe80::1/64"].

Definition eth0 : testDevice :=
  mkTestDevice "eth0" (Some "../../devices/pci0000:00/0000:00:03.0/net/eth0") true
    legacyOnly (0, 0x1010 + 0x80) (Some addrs0) "52:54:00:12:34:56"
    (Some "../../../../bus/pci/drivers/e1000").

Definition eth1 : testDevice :=
  mkTestDevice "eth1" (Some "../../devices/pci0000:00/0000:00:04.0/net/eth1") false
    legacyOnly (19, 0) None "" None.

Definition eth2 : testDevice :=
  mkTestDevice "eth2" (Some "../../devices/pci0000:00/0000:00:05.0/net/eth2") true
    (modern 3 25000) (0, 0) (Some addrs0) "52:54:00:12:34:57"
    (Some "../../../../bus/pci/drivers/mlx5_core").

Definition eth3 : testDevice :=
  mkTestDevice "eth3" (Some "../../devices/pci0000:00/0000:00:06.0/net/eth3") true
    noHandshake (0, 0x280) (Some addrs0) "52:54:00:12:34:58" None.

(** A regular file in the device directory, as the bonding driver makes. *)
Definition bonding_masters : testDevice :=
  mkTestDevice "bonding_masters" None true legacyOnly (19, 0) None "" None.

(* ===================================================================== *)
(** ** Further vocabulary *)
(* ===================================================================== *)

(** *** Lines *)

Fixpoint tabs (n : nat) : string :=
  match n with
  | O => EmptyString
  | S m => String tab (tabs m)
  end.

Fixpoint has_tab (s : string) : bool :=
  match s with
  | EmptyString => false
  | String c r => Ascii.eqb c tab || has_tab r
  end.

(** The first field of a line: what the [switch] of the reader looks at. *)
Definition lineKey (text : string) : string :=
  match reTwoColumns_Split2 text with
  | k :: _ => k
  | [] => EmptyString
  end.

(** A line whose first field is none of the recognised keys. *)
Definition ignored (text : string) : bool := negb (recognised (lineKey text)).

(** The host with the ignored lines taken out of its stream. *)
Definition dropIgnored (host : CPUHost) : CPUHost :=
  mkCPUHost (NumCPU host)
    (match cpuInfoFile host with
     | Some (lines, scanErr) =>
         Some (List.filter (fun text => negb (ignored text)) lines, scanErr)
     | None => None
     end).

(** The stream could not be read to its end: the file did not open or the
    scanner stopped with an error. *)
Definition scanFailed (host : CPUHost) : bool :=
  match cpuInfoFile host with
  | None => true
  | Some (_, scanErr) => scanErr
  end.

(** The value of the first line with key [k] whose value is not empty, and
    the empty string when there is none. *)
Fixpoint firstValue (k : string) (lines : list string) : string :=
  match lines with
  | [] => EmptyString
  | text :: rest =>
      match field text with
      | Some (k', v) =>
          if String.eqb k' k && negb (String.eqb v "") then v
          else firstValue k rest
      | None => firstValue k rest
      end
  end.

(** What the declared-cores lines add up to: the declared number, when it
    parses as an 8-bit integer, and one more for every such line. *)
Fixpoint declaredCores (lines : list string) : Z :=
  match lines with
  | [] => 0
  | text :: rest =>
      match field text with
      | Some (k, v) =>
          if String.eqb k "cpu cores" then
            match strconv_ParseInt v 8 with
            | Some c => c
            | None => 0
            end + 1 + declaredCores rest
          else declaredCores rest
      | None => declaredCores rest
      end
  end.

(** No two consecutive spaces. *)
Fixpoint noDoubleSpace (s : string) : bool :=
  match s with
  | String a r =>
      match r with
      | String b _ => negb (Ascii.eqb a space && Ascii.eqb b space)
      | EmptyString => true
      end && noDoubleSpace r
  | EmptyString => true
  end.

(** *** Descriptors *)

Fixpoint zeros (n : nat) : string :=
  match n with
  | O => EmptyString
  | S m => String zero (zeros m)
  end.

(** The open descriptors after closing [fd]: its first occurrence goes. *)
Fixpoint closeFd (fd : Z) (open : list Z) : list Z :=
  match open with
  | [] => []
  | x :: rest => if x =? fd then rest else x :: closeFd fd rest
  end.

(** The host of [testOS] with a world that is the list of the descriptors
    that are open: a socket gets the next free number. *)
Definition fdOS (ds : list testDevice) : OS (list Z) :=
  {| ioutil_ReadDir := ioutil_ReadDir (testOS ds);
     os_Readlink := os_Readlink (testOS ds);
     os_Stat := os_Stat (testOS ds);
     slurpFile := slurpFile (testOS ds);
     net_InterfaceByName := net_InterfaceByName (testOS ds);
     net_interfaceAddrs := net_interfaceAddrs (testOS ds);
     syscall_Socket := fun w =>
       (Some (3 + Z.of_nat (length w)), (3 + Z.of_nat (length w)) :: w);
     syscall_Close := fun w fd => closeFd fd w;
     ioctl_GLINKSETTINGS := fun w fd n req =>
       (fst (ioctl_GLINKSETTINGS (testOS ds) 0%nat fd n req), w);
     ioctl_GSET := fun w fd n req =>
       (fst (ioctl_GSET (testOS ds) 0%nat fd n req), w) |}.

(** A kernel whose handshake answers with the lowest word count and whose
    second call fails with errno 22. *)
Definition minCount (req : ethtoolLinkSettingType.t)
    : Z * ethtoolLinkSettingType.t :=
  if ethtoolLinkSettingType.LinkModeMasksNwords req =? 0
  then (0, ethtoolLinkSettingType.setLinkModeMasksNwords (-128) req)
  else (22, req).

Definition eth5 : testDevice :=
  mkTestDevice "eth5" (Some "../../devices/virtual/net/eth5") true
    minCount (0, 0) None "" None.

(** The capability bits the two legacy decoders look at. *)
Definition portMask : Z := 0xF80.
Definition speedMask : Z := 0x7FFE903F.

(* Appending to a string that starts with known characters is computed. *)
Local Arguments String.append !s1 s2 : simpl nomatch.
Local Set Warnings "-clear-no-such-hyp".

(* ===================================================================== *)
(** ** Legacy bitmask decoding *)
(* ===================================================================== *)

Lemma land_pow2 (supp k : Z) :
  0 <= k -> Z.land supp (2 ^ k) = if Z.testbit supp k then 2 ^ k else 0.
Proof.
  intros Hk. apply Z.bits_inj'. intros n Hn.
  rewrite Z.land_spec, Z.pow2_bits_eqb by lia.
  destruct (Z.eqb_spec k n) as [->|Hne].
  - destruct (Z.testbit supp n); simpl.
    + rewrite Z.pow2_bits_eqb, Z.eqb_refl by lia. reflexivity.
    + rewrite Z.bits_0. reflexivity.
  - rewrite andb_false_r.
    destruct (Z.testbit supp k).
    + rewrite Z.pow2_bits_eqb by lia. symmetry. apply Z.eqb_neq. exact Hne.
    + rewrite Z.bits_0. reflexivity.
Qed.

Lemma bit_test (supp k : Z) :
  0 <= k -> (Z.land supp (2 ^ k) >? 0) = Z.testbit supp k.
Proof.
  intros Hk. rewrite land_pow2 by exact Hk.
  destruct (Z.testbit supp k).
  - apply Z.gtb_lt. apply Z.pow_pos_nonneg; lia.
  - reflexivity.
Qed.

Lemma mask_test (supp m : Z) :
  0 <= m -> (Z.land supp m >? 0) = negb (Z.land supp m =? 0).
Proof.
  intros Hm.
  assert (0 <= Z.land supp m) by (apply Z.land_nonneg; right; exact Hm).
  destruct (Z.eqb_spec (Z.land supp m) 0) as [->|Hne]; simpl.
  - reflexivity.
  - apply Z.gtb_lt. lia.
Qed.

Lemma getPortType_portLabel (supp : Z) : getPortType supp = portLabel supp.
Proof.
  unfold getPortType, portLabel, portBits.
  cbn [getPortType_loop List.filter List.map fst snd].
  change (Z.shiftl 1 (Z.of_nat 0 + 7)) with (2 ^ 7).
  change (Z.shiftl 1 (Z.of_nat 1 + 7)) with (2 ^ 8).
  change (Z.shiftl 1 (Z.of_nat 2 + 7)) with (2 ^ 9).
  change (Z.shiftl 1 (Z.of_nat 3 + 7)) with (2 ^ 10).
  change (Z.shiftl 1 (Z.of_nat 4 + 7)) with (2 ^ 11).
  rewrite !bit_test by lia.
  generalize (Z.testbit supp 7) (Z.testbit supp 8) (Z.testbit supp 9)
             (Z.testbit supp 10) (Z.testbit supp 11).
  intros [] [] [] [] []; reflexivity.
Qed.

Lemma getMaxSpeed_firstSpeed (supp : Z) : getMaxSpeed supp = firstSpeed supp.
Proof.
  unfold getMaxSpeed, firstSpeed, speedTests.
  cbn [List.find fst snd].
  rewrite !mask_test by lia.
  repeat match goal with
         | |- context [negb (Z.land supp ?m =? 0)] =>
             destruct (negb (Z.land supp m =? 0)); try reflexivity
         end.
Qed.

(** When no test of higher priority matches, a mask that matches the
    10000 Mbps test decodes to 10000 whatever the lower tests say. *)
Lemma getMaxSpeed_10000 (supp : Z) :
  Z.land supp 0x78000000 = 0 -> Z.land supp 0x07800000 = 0 ->
  Z.land supp 0x00600000 = 0 -> Z.land supp 0x001c1000 <> 0 ->
  getMaxSpeed supp = 10000.
Proof.
  intros H1 H2 H3 H4. unfold getMaxSpeed.
  rewrite H1, H2, H3. cbn [Z.gtb Z.compare].
  rewrite mask_test by lia.
  destruct (Z.eqb_spec (Z.land supp 0x001c1000) 0); [contradiction | reflexivity].
Qed.

(** C8: for every supported-capabilities mask, the port label is the labels
    of the set bits among positions 7 to 11, in that order, joined with a
    slash and without a trailing separator, and the maximum speed is the
    speed of the first matching test in the order 56000, 40000, 20000, 10000,
    2500, 1000, 100, 10, and 0 when none matches.  Bits 7 and 9 give
    tp/mii; a mask in both the 10000 and the 1000 test gives 10000. *)
Theorem C8_legacy_decoding :
  forall supp : Z,
    getPortType supp = portLabel supp /\
    getMaxSpeed supp = firstSpeed supp /\
    getPortType (2 ^ 7 + 2 ^ 9) = "tp/mii" /\
    getMaxSpeed (Z.lor 0x00001000 0x00000010) = 10000 /\
    getMaxSpeed 0 = 0.
Proof.
  intros supp. split; [apply getPortType_portLabel |].
  split; [apply getMaxSpeed_firstSpeed |].
  repeat split; reflexivity.
Qed.

(* ===================================================================== *)
(** ** Strings and composite keys *)
(* ===================================================================== *)

Lemma string_length_app (a b : string) :
  String.length (a +:+ b) = (String.length a + String.length b)%nat.
Proof. induction a as [|c a IH]; simpl; [reflexivity | now rewrite IH]. Qed.

Lemma string_app_assoc (a b c : string) : (a +:+ b) +:+ c = a +:+ (b +:+ c).
Proof. induction a as [|x a IH]; simpl; [reflexivity | f_equal; exact IH]. Qed.

Lemma string_app_inv (a1 a2 b1 b2 : string) :
  String.length a1 = String.length a2 ->
  a1 +:+ b1 = a2 +:+ b2 -> a1 = a2 /\ b1 = b2.
Proof.
  revert a2. induction a1 as [|x a1 IH]; intros [|y a2] Hlen H;
    simpl in *; try discriminate.
  - split; [reflexivity | exact H].
  - injection H as -> H. injection Hlen as Hlen.
    destruct (IH a2 Hlen H) as [-> ->]. split; reflexivity.
Qed.



(* ===================================================================== *)
(** ** The scanning loop *)
(* ===================================================================== *)

Lemma Split2_cases (text : string) :
  (exists k, reTwoColumns_Split2 text = [k]) \/
  (exists k v, reTwoColumns_Split2 text = [k; v]).
Proof.
  unfold reTwoColumns_Split2. destruct text as [|c r]; [left; eauto |].
  destruct (reTwoColumns_find (String c r)) as [[b a]|]; eauto.
Qed.

Section Scanning.

Variable pf : string -> option Z.


Lemma scanLine_threads (st st' : scanState) (text : string) :
  scanLine pf st text = Returned st' ->
  CPU.Threads (cpuFacts st') = CPU.Threads (cpuFacts st).
Proof.
  unfold scanLine.
  destruct (Split2_cases text) as [[k E]|[k [v E]]]; rewrite E; simpl;
    intros H; unfold obind in H; repeat case_match; simplify_eq; simpl; auto.
Qed.

Lemma scanLine_returns (st : scanState) (text : string) :
  regular text = true -> exists st', scanLine pf st text = Returned st'.
Proof.
  unfold scanLine, regular, recognised.
  destruct (Split2_cases text) as [[k E]|[k [v E]]]; rewrite E; simpl.
  - intros H. apply negb_true_iff in H.
    repeat (apply orb_false_iff in H as [H ?]).
    repeat match goal with E : String.eqb _ _ = false |- _ => rewrite E; clear E end.
    eauto.
  - intros _. unfold reCacheSize_FindStringSubmatch.
    repeat (case_match; simplify_eq; simpl; eauto).
Qed.

Lemma scanLines_returns (lines : list string) :
  forall st, forallb regular lines = true ->
             exists st', scanLines pf st lines = Returned st'.
Proof.
  induction lines as [|text rest IH]; intros st H; simpl.
  - eauto.
  - apply andb_true_iff in H as [H1 H2].
    destruct (scanLine_returns st text H1) as [st1 E1]. rewrite E1. simpl.
    apply IH. exact H2.
Qed.


Lemma scanLines_threads (lines : list string) :
  forall st st', scanLines pf st lines = Returned st' ->
    CPU.Threads (cpuFacts st') = CPU.Threads (cpuFacts st).
Proof.
  induction lines as [|text rest IH]; intros st st' H; simpl in H.
  - injection H as <-. reflexivity.
  - destruct (scanLine pf st text) as [st1|] eqn:E1; simpl in H; [|discriminate].
    rewrite (IH _ _ H). eapply scanLine_threads; eauto.
Qed.



Lemma getCPUInfo_threads (host : CPUHost) (si si' : SysInfo) :
  getCPUInfo pf host si = Returned si' ->
  CPU.Threads (siCPU si') = Z.of_nat (NumCPU host).
Proof.
  unfold getCPUInfo. destruct (cpuInfoFile host) as [[lines scanErr]|].
  - destruct (scanLines pf _ lines) as [st|] eqn:E; simpl; [|discriminate].
    apply scanLines_threads in E. simpl in E.
    destruct scanErr; intros [= <-]; simpl; [exact E |].
    destruct (virtualized (siNode si)); simpl; exact E.
  - intros [= <-]. reflexivity.
Qed.

Lemma getCPUInfo_returns (host : CPUHost) (si : SysInfo) :
  regularHost host = true -> exists si', getCPUInfo pf host si = Returned si'.
Proof.
  unfold regularHost, getCPUInfo.
  destruct (cpuInfoFile host) as [[lines scanErr]|]; [|eauto].
  intros H.
  destruct (scanLines_returns lines (scanInit (CPU.setThreads (Z.of_nat (NumCPU host)) (siCPU si))) H)
    as [st E].
  rewrite E. simpl. destruct scanErr; eauto.
Qed.

(** The virtualization flag has no influence on what is returned. *)
Lemma getCPUInfo_ignores_node (host : CPUHost) (n1 n2 : Node.t) (c : CPU.t) :
  match getCPUInfo pf host (mkSysInfo n1 c), getCPUInfo pf host (mkSysInfo n2 c) with
  | Returned a, Returned b => siCPU a = siCPU b
  | Panicked p, Panicked q => p = q
  | _, _ => False
  end.
Proof.
  unfold getCPUInfo. simpl.
  destruct (cpuInfoFile host) as [[lines scanErr]|]; [|reflexivity].
  destruct (scanLines pf _ lines) as [st|]; simpl; [|reflexivity].
  destruct scanErr; [reflexivity |].
  destruct (virtualized n1), (virtualized n2); reflexivity.
Qed.

End Scanning.

(* ===================================================================== *)
(** ** Counting distinct values *)
(* ===================================================================== *)






(* ===================================================================== *)
(** ** Package and core counts *)
(* ===================================================================== *)

(** C1 (code does otherwise): on a guest, with two blocks that repeat
    processor index 0, the loop leaves the fallback counters at 2 processor
    lines and 4 declared cores, and these are stored; the two assignments
    that follow replace them with the sizes of the identity sets, so the
    reader returns 1 package and 1 core. *)
Theorem C1_fallback_counters_overwritten :
  virtualized guest = true /\
  (exists st,
      scanLines noFloat (scanInit (CPU.setThreads 4 CPU.zero)) repeatedBlocks
        = Returned st /\
      uint_of_int (cpuCount st) = 2 /\ uint_of_int (coreCount st) = 4) /\
  (exists si',
      getCPUInfo noFloat (mkCPUHost 4 (Some (repeatedBlocks, false)))
        (mkSysInfo guest CPU.zero) = Returned si' /\
      CPU.Cpus (siCPU si') = 1 /\ CPU.Cores (siCPU si') = 1).
Proof.
  split; [reflexivity |]. split.
  - eexists. split; [vm_compute; reflexivity |]. split; reflexivity.
  - eexists. split; [vm_compute; reflexivity |]. split; reflexivity.
Qed.







(* ===================================================================== *)
(** ** Model strings *)
(* ===================================================================== *)



Lemma after_space_spaces (n : nat) (r : string) :
  ~ startsWithSpace r ->
  after_space (spaces n +:+ r) = reExtraSpace_ReplaceAll r.
Proof.
  intros Hr. induction n as [|n IH]; simpl.
  - destruct r as [|a r]; simpl; [reflexivity |].
    destruct (Ascii.eqb_spec a space) as [->|Hne]; [| reflexivity].
    exfalso. apply Hr. exists r. reflexivity.
  - exact IH.
Qed.

(** The relation determines its result: it is what the code computes. *)
Lemma collapsed_functional (s o : string) :
  collapsed s o -> o = reExtraSpace_ReplaceAll s.
Proof.
  induction 1 as [|c r r' Hc _ IH|n r r' Hr _ IH]; simpl.
  - reflexivity.
  - rewrite (proj2 (Ascii.eqb_neq c space) Hc). now rewrite IH.
  - rewrite after_space_spaces by exact Hr. now rewrite IH.
Qed.

Lemma strip_dash_space_Some (s r : string) :
  strip_dash_space s = Some r -> s = "- " +:+ r.
Proof.
  destruct s as [|c [|d s]]; simpl; try discriminate.
  destruct (Ascii.eqb_spec c "-") as [->|]; [| discriminate].
  destruct (Ascii.eqb_spec d space) as [->|]; [| discriminate].
  intros [= ->]. reflexivity.
Qed.



(** The relation determines its result as well. *)
Lemma firstReplaced_functional (old new s o1 o2 : string) :
  firstReplaced old new s o1 -> firstReplaced old new s o2 -> o1 = o2.
Proof.
  intros [(b1 & a1 & Hs1 & Hmin1 & ->) | (Hno1 & ->)]
         [(b2 & a2 & Hs2 & Hmin2 & ->) | (Hno2 & ->)].
  - assert (Hlen : String.length b1 = String.length b2).
    { apply Nat.le_antisymm.
      - apply Hmin1. exists a2. exact Hs2.
      - apply Hmin2. exists a1. exact Hs1. }
    rewrite Hs1 in Hs2.
    destruct (string_app_inv _ _ _ _ Hlen Hs2) as [-> Hrest].
    apply (String.app_inj old) in Hrest. now subst.
  - exfalso. apply (Hno2 b1). exists a1. exact Hs1.
  - exfalso. apply (Hno1 b2). exists a2. exact Hs2.
  - reflexivity.
Qed.

(** First seen wins: a model that is stored already is kept. *)
Lemma model_first_seen_wins (pf : string -> option Z) (st : scanState)
    (text v : string) :
  reTwoColumns_Split2 text = ["model name"; v] ->
  CPU.Model (cpuFacts st) <> "" ->
  scanLine pf st text = Returned st.
Proof.
  intros Hsplit Hset. unfold scanLine. rewrite Hsplit. simpl.
  destruct (String.eqb_spec (CPU.Model (cpuFacts st)) ""); [contradiction | reflexivity].
Qed.



Example model_normalised_value :
  exists st',
    scanLine noFloat (scanInit CPU.zero) xeonLine = Returned st' /\
    CPU.Model (cpuFacts st') = "Intel(R) Xeon(R) CPU E5-2680 - v3".
Proof. eexists. split; reflexivity. Qed.

(* ===================================================================== *)
(** ** Cache sizes *)
(* ===================================================================== *)

Lemma span_digits_spec (s : string) :
  s = fst (span_digits s) +:+ snd (span_digits s) /\
  allDigits (fst (span_digits s)) = true.
Proof.
  induction s as [|c r [IH1 IH2]]; simpl; [split; reflexivity |].
  destruct (is_digit c) eqn:Ec; simpl; [| split; reflexivity].
  destruct (span_digits r) as [d rest]; simpl in *.
  rewrite Ec, IH2. split; [now rewrite <- IH1 | reflexivity].
Qed.


Lemma FindStringSubmatch_Some (v : string) (m : list string) :
  reCacheSize_FindStringSubmatch v = Some m ->
  exists d, m = [v; d] /\ kbForm v d.
Proof.
  unfold reCacheSize_FindStringSubmatch.
  destruct (span_digits_spec v) as [Hv Hd].
  destruct (span_digits v) as [d rest]; simpl in *.
  destruct d as [|c d]; [discriminate |].
  destruct (String.eqb_spec rest " KB") as [->|]; [| discriminate].
  intros [= <-]. exists (String c d).
  split; [reflexivity |]. split; [discriminate |]. split; assumption.
Qed.




(** First seen wins: a cache size that is stored already is kept. *)
Lemma cache_first_seen_wins (pf : string -> option Z) (st : scanState)
    (text v : string) :
  reTwoColumns_Split2 text = ["cache size"; v] ->
  CPU.Cache (cpuFacts st) <> 0 ->
  scanLine pf st text = Returned st.
Proof.
  intros Hsplit Hset. unfold scanLine. rewrite Hsplit. simpl.
  destruct (Z.eqb_spec (CPU.Cache (cpuFacts st)) 0); [contradiction | reflexivity].
Qed.



(** The two values the specification names, and one that does not fit. *)
Example cache_size_other_formats :
  forall v, In v ["30MB"; "1024"; "30720 kB"; " 30720 KB"; "30720 KB ";
                   "99999999999999999999 KB"] ->
    exists st',
      scanLine noFloat (scanInit CPU.zero) (cacheLine v) = Returned st' /\
      CPU.Cache (cpuFacts st') = 0.
Proof.
  intros v Hin. simpl in Hin.
  repeat (destruct Hin as [<- | Hin]; [eexists; split; reflexivity |]).
  contradiction.
Qed.

(* ===================================================================== *)
(** ** The link inspector *)
(* ===================================================================== *)

Section Inspector.

Context {World : Type} (os : OS World).

(** The modern query returns either settings and no error, or an error
    and no settings. *)
Lemma glink_cases (w : World) (name : string) :
  exists w',
    (exists r, getSupportedWithEthtoolGLinkSetting os w name = ((Some r, None), w')) \/
    (exists e, getSupportedWithEthtoolGLinkSetting os w name = ((None, Some e), w')).
Proof.
  unfold getSupportedWithEthtoolGLinkSetting.
  destruct (syscall_Socket os w) as [[fd|] w1]; [| eauto].
  destruct (ioctl_GLINKSETTINGS os w1 fd _ _) as [[errno r1] w2].
  destruct (errno =? 0); [| eauto].
  destruct (_ || _); [eauto |].
  destruct (ioctl_GLINKSETTINGS os w2 fd _ _) as [[errno2 r2] w3].
  destruct (errno2 =? 0); eauto.
Qed.

(** One iteration of the enumeration never panics; it skips the entry
    exactly when its link cannot be read, and otherwise names the device
    after the entry and fills the addresses in only after a modern query
    without error. *)
Lemma deviceFacts_spec (w : World) (name : string) :
  match os_Readlink os (devicePath name) with
  | None => deviceFacts os w name = Returned (None, w)
  | Some _ =>
      exists d w',
        deviceFacts os w name = Returned (Some d, w') /\
        NetworkDevice.Name d = name /\
        NetworkDevice.IpAddresses d
        = match snd (fst (getSupportedWithEthtoolGLinkSetting os w name)) with
          | None => lookupAddresses os name
          | Some _ => []
          end
  end.
Proof.
  unfold deviceFacts, devicePath.
  destruct (os_Readlink os (path_Join [sysClassNet; name])) as [target|];
    [| reflexivity].
  destruct (glink_cases w name) as [w1 [[r E] | [e E]]]; rewrite E; simpl.
  - match goal with
    | |- context [os_Readlink os ?p] => destruct (os_Readlink os p)
    end;
      eexists _, _; (split; [reflexivity |]); split; try reflexivity;
      unfold lookupAddresses, Interface_Addrs; simpl;
      destruct (net_InterfaceByName os name); reflexivity.
  - destruct (getSupported os w1 name) as [supp w2]; simpl.
    match goal with
    | |- context [os_Readlink os ?p] => destruct (os_Readlink os p)
    end;
      eexists _, _; (split; [reflexivity |]); split; reflexivity.
Qed.

Lemma enumerate_spec (devices : list string) :
  forall (w : World) (network : list NetworkDevice.t),
  exists facts w',
    enumerate os w devices network = Returned ((network ++ facts)%list, w') /\
    List.map NetworkDevice.Name facts = List.filter (readable os) devices.
Proof.
  induction devices as [|name rest IH]; intros w network; simpl.
  - exists [], w. rewrite app_nil_r. split; reflexivity.
  - pose proof (deviceFacts_spec w name) as Hd. unfold readable at 1.
    destruct (os_Readlink os (devicePath name)) as [target|].
    + destruct Hd as (d & w1 & E & Hname & _). rewrite E. simpl.
      destruct (IH w1 (network ++ [d])%list) as (facts & w2 & E2 & Hnames).
      exists (d :: facts), w2. rewrite E2, <- app_assoc. simpl.
      split; [reflexivity |]. now rewrite Hname, Hnames.
    + rewrite Hd. simpl. apply IH.
Qed.

(** The enumeration returns in every world. *)
Lemma getNetworkInfo_returns (w : World) (network : option (list NetworkDevice.t)) :
  exists r, getNetworkInfo os w network = Returned r.
Proof.
  unfold getNetworkInfo.
  destruct (ioutil_ReadDir os sysClassNet) as [devices|]; [| eauto].
  destruct (enumerate_spec devices w []) as (facts & w' & E & _).
  rewrite E. simpl. eauto.
Qed.


End Inspector.

(** C2 (code does otherwise): the address loop is guarded by the error of
    the modern query, not by the interface lookup.  On a host where both
    eth0 and eth2 have the same two addresses, eth0, whose kernel lacks the
    modern query, is returned without addresses, and eth2 with them. *)
Theorem C2_addresses_follow_modern_query :
  lookupAddresses (testOS [eth0; eth2]) "eth0" = ["192.0.2.10/24"; "fe80::1/64"] /\
  lookupAddresses (testOS [eth0; eth2]) "eth2" = ["192.0.2.10/24"; "fe80::1/64"] /\
  exists d0 d2 w,
    getNetworkInfo (testOS [eth0; eth2]) 0%nat None = Returned (Some [d0; d2], w) /\
    NetworkDevice.Name d0 = "eth0" /\ NetworkDevice.IpAddresses d0 = [] /\
    NetworkDevice.Name d2 = "eth2" /\
    NetworkDevice.IpAddresses d2 = ["192.0.2.10/24"; "fe80::1/64"].
Proof.
  split; [reflexivity |]. split; [reflexivity |].
  eexists _, _, _. split; [vm_compute; reflexivity |].
  repeat split; reflexivity.
Qed.

(** C3 (code does otherwise): a stream whose only line is the bare key
    processor, without the separator, makes the topology reader panic with an
    index out of range, on every host; the device enumeration, for its part,
    returns in every world. *)
Theorem C3_reader_panics_on_bare_key :
  (forall (pf : string -> option Z) (n : nat) (scanErr : bool) (si : SysInfo),
      getCPUInfo pf (mkCPUHost n (Some (["processor"], scanErr))) si
      = Panicked (IndexOutOfRange 1 1)) /\
  (forall (World : Type) (os : OS World) (w : World)
          (network : option (list NetworkDevice.t)),
      exists r, getNetworkInfo os w network = Returned r).
Proof.
  split.
  - intros pf n scanErr si. reflexivity.
  - intros World os w network. apply getNetworkInfo_returns.
Qed.




(** C5: when the first modern query succeeds at the system-call level but
    answers with a word count that is not negative, or with another command
    code than the modern one, the modern query returns an error and no
    settings, and the device gets its port and speed from the legacy mask
    read right after it. *)
Theorem C5_bad_handshake_falls_back :
  forall (World : Type) (os : OS World) (w w1 w2 : World) (name target : string)
         (fd : Z) (r1 : ethtoolLinkSettingType.t),
    syscall_Socket os w = (Some fd, w1) ->
    ioctl_GLINKSETTINGS os w1 fd (ifr_Name name)
      (ethtoolLinkSettingType.setCmd GLINKSETTING ethtoolLinkSettingType.zero)
      = ((0, r1), w2) ->
    0 <= ethtoolLinkSettingType.LinkModeMasksNwords r1 \/
    ethtoolLinkSettingType.Cmd r1 <> GLINKSETTING ->
    os_Readlink os (devicePath name) = Some target ->
    getSupportedWithEthtoolGLinkSetting os w name
      = ((None, Some (ErrNwordsCheck (ethtoolLinkSettingType.LinkModeMasksNwords r1))),
         syscall_Close os w2 fd) /\
    exists d,
      deviceFacts os w name
        = Returned (Some d, snd (getSupported os (syscall_Close os w2 fd) name)) /\
      NetworkDevice.Port d
        = getPortType (fst (getSupported os (syscall_Close os w2 fd) name)) /\
      NetworkDevice.Speed d
        = getMaxSpeed (fst (getSupported os (syscall_Close os w2 fd) name)).
Proof.
  intros World os w w1 w2 name target fd r1 Hsock Hioctl Hbad Hlink.
  assert (E : getSupportedWithEthtoolGLinkSetting os w name
              = ((None, Some (ErrNwordsCheck (ethtoolLinkSettingType.LinkModeMasksNwords r1))),
                 syscall_Close os w2 fd)).
  { unfold getSupportedWithEthtoolGLinkSetting. rewrite Hsock, Hioctl. simpl.
    assert (Hc : (0 <=? ethtoolLinkSettingType.LinkModeMasksNwords r1)
                 || negb (ethtoolLinkSettingType.Cmd r1 =? 76) = true).
    { apply orb_true_iff. destruct Hbad as [Hn | Hcmd].
      - left. apply Z.leb_le. exact Hn.
      - right. apply negb_true_iff, Z.eqb_neq. exact Hcmd. }
    rewrite Hc. reflexivity. }
  split; [exact E |].
  unfold deviceFacts. unfold devicePath in Hlink. rewrite Hlink, E.
  destruct (getSupported os (syscall_Close os w2 fd) name) as [supp w3]. simpl.
  match goal with
  | |- context [os_Readlink os ?p] => destruct (os_Readlink os p)
  end; eexists; (split; [reflexivity |]); split; reflexivity.
Qed.

Lemma C5_bad_handshake_falls_back_witness :
  exists d,
    deviceFacts (testOS [eth3]) 0%nat "eth3" = Returned (Some d, 2%nat) /\
    NetworkDevice.Port d = "tp/mii" /\ NetworkDevice.Speed d = 0.
Proof.
  destruct (C5_bad_handshake_falls_back nat (testOS [eth3]) 0%nat 1%nat 1%nat
              "eth3" "../../devices/pci0000:00/0000:00:06.0/net/eth3" 3
              (ethtoolLinkSettingType.setLinkModeMasksNwords 3
                 (ethtoolLinkSettingType.setCmd GLINKSETTING
                    ethtoolLinkSettingType.zero))
              eq_refl eq_refl)
    as (_ & d & E & Hp & Hs).
  - left. simpl. lia.
  - reflexivity.
  - exists d. split; [exact E |]. split; [exact Hp | exact Hs].
Defined.

(** The other trigger of C5: success with a negative word count, but an
    echoed command code that is not the modern one. *)
Example wrong_command_falls_back :
  let kernel req :=
    (0, ethtoolLinkSettingType.setLinkModeMasksNwords (-3)
          (ethtoolLinkSettingType.setCmd GSET req)) in
  let dev :=
    mkTestDevice "eth4" (Some "../../devices/virtual/net/eth4") true
      kernel (0, 0x1010 + 0x280) None "" None in
  fst (getSupportedWithEthtoolGLinkSetting (testOS [dev]) 0%nat "eth4")
    = (None, Some (ErrNwordsCheck (-3))) /\
  exists d w,
    deviceFacts (testOS [dev]) 0%nat "eth4" = Returned (Some d, w) /\
    NetworkDevice.Port d = "tp/mii" /\ NetworkDevice.Speed d = 10000.
Proof.
  split; [reflexivity |]. eexists _, _. split; [vm_compute; reflexivity |].
  split; reflexivity.
Qed.

(* ===================================================================== *)
(** ** More on the record stream *)
(* ===================================================================== *)

Lemma skip_tabs_colon (n : nat) (r : string) :
  skip_tabs (tabs n +:+ String ":" r) = String ":" r.
Proof.
  induction n as [|n IH]; simpl; [reflexivity | exact IH].
Qed.

Lemma find_separator (key : string) (n : nat) (v : string) :
  has_tab key = false ->
  reTwoColumns_find (key +:+ tabs (S n) +:+ ": " +:+ v) = Some (key, v).
Proof.
  induction key as [|c key IH]; intros Hk.
  - simpl. rewrite skip_tabs_colon. reflexivity.
  - simpl in Hk. apply orb_false_iff in Hk as [Hc Hk].
    change (String c key +:+ tabs (S n) +:+ ": " +:+ v)
      with (String c (key +:+ tabs (S n) +:+ ": " +:+ v)).
    cbn [reTwoColumns_find reTwoColumns_prefix].
    rewrite Hc, (IH Hk). reflexivity.
Qed.

(** X5: a key without a tab, one or more tabs, a colon, a space and a
    value split into the key and the value, whatever the value contains. *)
Theorem Split2_of_line :
  forall (key value : string) (n : nat),
    has_tab key = false ->
    reTwoColumns_Split2 (key +:+ tabs (S n) +:+ ": " +:+ value) = [key; value].
Proof.
  intros key value n Hk. unfold reTwoColumns_Split2.
  rewrite (find_separator key n value Hk).
  destruct key; reflexivity.
Qed.

Lemma Split2_of_line_witness :
  has_tab "cpu MHz" = false /\
  reTwoColumns_Split2 ("cpu MHz" +:+ tabs 2 +:+ ": " +:+ "2500.000" +:+ tabs 1 +:+ ": x")
  = ["cpu MHz"; "2500.000" +:+ tabs 1 +:+ ": x"].
Proof.
  split; [reflexivity |].
  exact (Split2_of_line "cpu MHz" ("2500.000" +:+ tabs 1 +:+ ": x") 1 eq_refl).
Defined.

Lemma skip_tabs_decomp (r : string) : exists n, r = tabs n +:+ skip_tabs r.
Proof.
  induction r as [|c r [n IH]]; [exists 0%nat; reflexivity |].
  simpl. destruct (Ascii.eqb_spec c tab) as [->|Hne].
  - exists (S n). simpl. now rewrite <- IH.
  - exists 0%nat. reflexivity.
Qed.

Lemma prefix_Some (s rest : string) :
  reTwoColumns_prefix s = Some rest -> exists n, s = tabs (S n) +:+ ": " +:+ rest.
Proof.
  destruct s as [|c r]; simpl; [discriminate |].
  destruct (Ascii.eqb_spec c tab) as [->|]; [| discriminate].
  destruct (skip_tabs_decomp r) as [n Hn].
  destruct (skip_tabs r) as [|x t] eqn:E; [discriminate |].
  destruct x as [[] [] [] [] [] [] [] []]; try discriminate.
  destruct t as [|y t]; [discriminate |].
  destruct y as [[] [] [] [] [] [] [] []]; try discriminate.
  intros [= <-]. exists n. simpl. now rewrite Hn.
Qed.

Lemma find_Some (s : string) :
  forall a b, reTwoColumns_find s = Some (a, b) ->
              exists n, s = a +:+ tabs (S n) +:+ ": " +:+ b.
Proof.
  induction s as [|c r IH]; intros a b.
  - simpl. discriminate.
  - cbn [reTwoColumns_find].
    destruct (reTwoColumns_prefix (String c r)) as [rest|] eqn:Ep.
    + intros [= <- <-]. exact (prefix_Some _ _ Ep).
    + destruct (reTwoColumns_find r) as [[a' b']|] eqn:Er; [| discriminate].
      intros [= <- <-]. destruct (IH a' b' eq_refl) as [n Hn].
      exists n. simpl. now rewrite Hn.
Qed.

(** X6: the fields of a line put the line together again: a single field
    is the whole line, and two fields are what stands before and after one
    run of tabs followed by a colon and a space.  There are never more than
    two fields and never none. *)
Theorem Split2_fields :
  forall s : string,
    match reTwoColumns_Split2 s with
    | [k] => k = s
    | [a; b] => exists n, s = a +:+ tabs (S n) +:+ ": " +:+ b
    | _ => False
    end.
Proof.
  intros s. unfold reTwoColumns_Split2.
  destruct s as [|c r]; [reflexivity |].
  destruct (reTwoColumns_find (String c r)) as [[a b]|] eqn:E; [| reflexivity].
  exact (find_Some _ _ _ E).
Qed.

Section MoreScanning.

Variable pf : string -> option Z.

Lemma scanLine_ignored (st : scanState) (text : string) :
  ignored text = true -> scanLine pf st text = Returned st.
Proof.
  unfold ignored, lineKey, recognised, scanLine.
  destruct (Split2_cases text) as [[k E]|[k [v E]]]; rewrite E; simpl;
    intros H; apply negb_true_iff in H;
    repeat (apply orb_false_iff in H as [H ?]);
    repeat match goal with E : String.eqb _ _ = false |- _ => rewrite E; clear E end;
    reflexivity.
Qed.

Lemma scanLines_dropIgnored (lines : list string) :
  forall st,
    scanLines pf st (List.filter (fun text => negb (ignored text)) lines)
    = scanLines pf st lines.
Proof.
  induction lines as [|text rest IH]; intros st; simpl; [reflexivity |].
  destruct (ignored text) eqn:E; simpl.
  - rewrite (scanLine_ignored st text E). simpl. apply IH.
  - destruct (scanLine pf st text) as [st1|]; simpl; [apply IH | reflexivity].
Qed.

Lemma scanLine_counts_kept (st st' : scanState) (text : string) :
  scanLine pf st text = Returned st' ->
  CPU.Cpus (cpuFacts st') = CPU.Cpus (cpuFacts st) /\
  CPU.Cores (cpuFacts st') = CPU.Cores (cpuFacts st).
Proof.
  unfold scanLine.
  destruct (Split2_cases text) as [[k E]|[k [v E]]]; rewrite E; simpl;
    intros H; unfold obind in H; repeat case_match; simplify_eq; simpl; auto.
Qed.

Lemma scanLines_counts_kept (lines : list string) :
  forall st st', scanLines pf st lines = Returned st' ->
    CPU.Cpus (cpuFacts st') = CPU.Cpus (cpuFacts st) /\
    CPU.Cores (cpuFacts st') = CPU.Cores (cpuFacts st).
Proof.
  induction lines as [|text rest IH]; intros st st' H; simpl in H.
  - injection H as <-. split; reflexivity.
  - destruct (scanLine pf st text) as [st1|] eqn:E1; simpl in H; [|discriminate].
    destruct (IH _ _ H) as [Ha Hb].
    destruct (scanLine_counts_kept _ _ _ E1) as [Hc Hd].
    split; congruence.
Qed.

End MoreScanning.

(** X4: lines whose first field is not a recognised key, blank lines among
    them, have no effect: the reader gives the same result, or the same
    panic, on the stream without them. *)
Theorem getCPUInfo_dropIgnored :
  forall (pf : string -> option Z) (host : CPUHost) (si : SysInfo),
    getCPUInfo pf (dropIgnored host) si = getCPUInfo pf host si.
Proof.
  intros pf host si. unfold getCPUInfo, dropIgnored. simpl.
  destruct (cpuInfoFile host) as [[lines scanErr]|]; [| reflexivity].
  rewrite scanLines_dropIgnored. reflexivity.
Qed.

(** X2: when the file does not open or the scanner stops with an error,
    the reader still returns; the package and core counts and the node are
    those of the receiver before the call, and the thread count is the
    host's logical CPU count. *)
Theorem getCPUInfo_scan_failed :
  forall (pf : string -> option Z) (host : CPUHost) (si : SysInfo),
    regularHost host = true ->
    scanFailed host = true ->
    exists si',
      getCPUInfo pf host si = Returned si' /\
      CPU.Cpus (siCPU si') = CPU.Cpus (siCPU si) /\
      CPU.Cores (siCPU si') = CPU.Cores (siCPU si) /\
      CPU.Threads (siCPU si') = Z.of_nat (NumCPU host) /\
      siNode si' = siNode si.
Proof.
  intros pf host si Hreg Hfail.
  destruct (getCPUInfo_returns pf host si Hreg) as [si' E].
  exists si'. split; [exact E |].
  pose proof (getCPUInfo_threads pf host si si' E) as Ht.
  unfold getCPUInfo, scanFailed in *.
  destruct (cpuInfoFile host) as [[lines scanErr]|].
  - subst scanErr.
    destruct (scanLines pf _ lines) as [st|] eqn:Es; simpl in E; [| discriminate].
    injection E as <-. simpl in *.
    destruct (scanLines_counts_kept pf _ _ _ Es) as [Hc Hk]. simpl in Hc, Hk.
    repeat split; assumption.
  - injection E as <-. simpl in *. repeat split; assumption.
Qed.

Lemma getCPUInfo_scan_failed_witness :
  regularHost (mkCPUHost 8 (Some (twoProcessors, true))) = true /\
  scanFailed (mkCPUHost 8 (Some (twoProcessors, true))) = true /\
  exists si',
    getCPUInfo noFloat (mkCPUHost 8 (Some (twoProcessors, true)))
      (mkSysInfo guest CPU.zero) = Returned si' /\
    CPU.Cpus (siCPU si') = 0 /\ CPU.Cores (siCPU si') = 0 /\
    CPU.Threads (siCPU si') = 8.
Proof.
  split; [reflexivity |]. split; [reflexivity |].
  destruct (getCPUInfo_scan_failed noFloat (mkCPUHost 8 (Some (twoProcessors, true)))
              (mkSysInfo guest CPU.zero) eq_refl eq_refl)
    as (si' & E & Hc & Hk & Ht & _).
  exists si'. repeat split; assumption.
Defined.

(* ===================================================================== *)
(** ** First seen wins *)
(* ===================================================================== *)

Lemma firstValue_cons (k text : string) (rest : list string) :
  firstValue k (text :: rest)
  = if String.eqb (firstValue k [text]) "" then firstValue k rest
    else firstValue k [text].
Proof.
  simpl. destruct (field text) as [[k' v]|]; [| reflexivity].
  destruct (String.eqb k' k); simpl; [| reflexivity].
  destruct (String.eqb_spec v ""); simpl; [reflexivity |].
  destruct (String.eqb_spec v ""); [contradiction | reflexivity].
Qed.

Ltac eqb_subst :=
  repeat match goal with
         | H : String.eqb ?a ?b = true |- _ => apply String.eqb_eq in H; subst
         end.

Section FirstSeen.

Variable pf : string -> option Z.

Lemma scanLine_vendor_flags (st st' : scanState) (text : string) :
  scanLine pf st text = Returned st' ->
  CPU.Vendor (cpuFacts st')
  = (if String.eqb (CPU.Vendor (cpuFacts st)) "" then firstValue "vendor_id" [text]
     else CPU.Vendor (cpuFacts st)) /\
  CPU.Flags (cpuFacts st')
  = (if String.eqb (CPU.Flags (cpuFacts st)) "" then firstValue "flags" [text]
     else CPU.Flags (cpuFacts st)).
Proof.
  unfold scanLine, firstValue, field.
  destruct (Split2_cases text) as [[k E]|[k [v E]]]; rewrite E; simpl;
    intros H; unfold obind in H; repeat case_match; simplify_eq; simpl;
    eqb_subst; simpl in *; try discriminate; auto.
  all: repeat match goal with
              | H : String.eqb _ _ = false |- _ => apply String.eqb_neq in H
              end.
  all: repeat match goal with
              | H : negb (String.eqb _ _) = false |- _ =>
                  apply negb_false_iff, String.eqb_eq in H
              end.
  all: split; congruence.
Qed.

Lemma scanLines_vendor_flags (lines : list string) :
  forall st st', scanLines pf st lines = Returned st' ->
    CPU.Vendor (cpuFacts st')
    = (if String.eqb (CPU.Vendor (cpuFacts st)) "" then firstValue "vendor_id" lines
       else CPU.Vendor (cpuFacts st)) /\
    CPU.Flags (cpuFacts st')
    = (if String.eqb (CPU.Flags (cpuFacts st)) "" then firstValue "flags" lines
       else CPU.Flags (cpuFacts st)).
Proof.
  induction lines as [|text rest IH]; intros st st' H.
  - simpl in H. injection H as <-. simpl.
    split;
      match goal with
      | |- context [String.eqb ?a ""] => destruct (String.eqb_spec a "")
      end; congruence.
  - simpl in H.
    destruct (scanLine pf st text) as [st1|] eqn:E1; simpl in H; [|discriminate].
    destruct (IH _ _ H) as [Hv Hf].
    destruct (scanLine_vendor_flags _ _ _ E1) as [Hv1 Hf1].
    rewrite !(firstValue_cons _ text rest). rewrite Hv, Hf, Hv1, Hf1.
    split.
    + destruct (String.eqb_spec (CPU.Vendor (cpuFacts st)) "") as [_|Hne].
      * reflexivity.
      * destruct (String.eqb_spec (CPU.Vendor (cpuFacts st)) ""); [contradiction | reflexivity].
    + destruct (String.eqb_spec (CPU.Flags (cpuFacts st)) "") as [_|Hne].
      * reflexivity.
      * destruct (String.eqb_spec (CPU.Flags (cpuFacts st)) ""); [contradiction | reflexivity].
Qed.

End FirstSeen.

(** X3: on a stream with regular lines, the vendor returned is the one the
    receiver had, and when it had none, the value of the first vendor_id
    line whose value is not empty; the same holds for the feature flags and
    the flags lines.  This does not depend on whether the scanner ended
    with an error. *)
Theorem getCPUInfo_first_vendor_flags :
  forall (pf : string -> option Z) (host : CPUHost) (si : SysInfo)
         (lines : list string) (scanErr : bool),
    cpuInfoFile host = Some (lines, scanErr) ->
    forallb regular lines = true ->
    exists si',
      getCPUInfo pf host si = Returned si' /\
      CPU.Vendor (siCPU si')
      = (if String.eqb (CPU.Vendor (siCPU si)) "" then firstValue "vendor_id" lines
         else CPU.Vendor (siCPU si)) /\
      CPU.Flags (siCPU si')
      = (if String.eqb (CPU.Flags (siCPU si)) "" then firstValue "flags" lines
         else CPU.Flags (siCPU si)).
Proof.
  intros pf host si lines scanErr Hfile Hreg.
  destruct (getCPUInfo_returns pf host si) as [si' E].
  { unfold regularHost. rewrite Hfile. exact Hreg. }
  exists si'. split; [exact E |].
  unfold getCPUInfo in E. rewrite Hfile in E.
  destruct (scanLines pf _ lines) as [st|] eqn:Es; simpl in E; [| discriminate].
  destruct (scanLines_vendor_flags pf _ _ _ Es) as [Hv Hf]. simpl in Hv, Hf.
  destruct scanErr; injection E as <-; simpl.
  - split; assumption.
  - destruct (virtualized (siNode si)); simpl; split; assumption.
Qed.

Lemma getCPUInfo_first_vendor_flags_witness :
  exists si',
    getCPUInfo noFloat
      (mkCPUHost 2 (Some ([line "vendor_id" ""; line "flags" "fpu vme";
                           line "vendor_id" "GenuineIntel";
                           line "vendor_id" "AuthenticAMD"; line "flags" "fpu"], false)))
      (mkSysInfo bareMetal CPU.zero) = Returned si' /\
    CPU.Vendor (siCPU si') = "GenuineIntel" /\
    CPU.Flags (siCPU si') = "fpu vme".
Proof.
  exact (getCPUInfo_first_vendor_flags noFloat
           (mkCPUHost 2 (Some ([line "vendor_id" ""; line "flags" "fpu vme";
                                line "vendor_id" "GenuineIntel";
                                line "vendor_id" "AuthenticAMD"; line "flags" "fpu"], false)))
           (mkSysInfo bareMetal CPU.zero) _ false eq_refl eq_refl).
Defined.

(* ===================================================================== *)
(** ** The fallback counters *)
(* ===================================================================== *)

Lemma int_wrap_small (x : Z) : - 2 ^ 63 <= x < 2 ^ 63 -> int_wrap x = x.
Proof. intros H. unfold int_wrap. rewrite Z.mod_small; lia. Qed.

Lemma is_digit_val (c : ascii) : is_digit c = true -> 0 <= digit_val c <= 9.
Proof.
  unfold is_digit, digit_val. intros H. apply andb_true_iff in H as [H1 H2].
  apply Nat.leb_le in H1, H2. lia.
Qed.

Lemma parse_digits_nonneg (s : string) :
  forall acc n, 0 <= acc -> parse_digits acc s = Some n -> 0 <= n.
Proof.
  induction s as [|c r IH]; intros acc n Hacc; simpl.
  - intros [= <-]. exact Hacc.
  - destruct (is_digit c) eqn:Ec; [| discriminate].
    apply IH. pose proof (is_digit_val c Ec). lia.
Qed.

Lemma ParseInt8_range (v : string) (c : Z) :
  strconv_ParseInt v 8 = Some c -> -128 <= c <= 127.
Proof.
  unfold strconv_ParseInt. destruct v as [|a r]; [discriminate |].
  cbv zeta.
  destruct (if Ascii.eqb a "+" || Ascii.eqb a "-" then r else String a r)
    as [|b t]; [discriminate |].
  destruct (parse_digits 0 (String b t)) as [un|] eqn:Ep; [| discriminate].
  apply parse_digits_nonneg in Ep; [| lia].
  destruct (Ascii.eqb a "-").
  - destruct (Z.leb_spec un (2 ^ (8 - 1))); [| discriminate].
    intros [= <-]. change (2 ^ (8 - 1)) with 128 in *. lia.
  - destruct (Z.ltb_spec un (2 ^ (8 - 1))); [| discriminate].
    intros [= <-]. change (2 ^ (8 - 1)) with 128 in *. lia.
Qed.

Section Counters.

Variable pf : string -> option Z.

Lemma scanLine_counters (st st' : scanState) (text : string) :
  scanLine pf st text = Returned st' ->
  - 2 ^ 63 + 129 <= cpuCount st < 2 ^ 63 - 129 ->
  - 2 ^ 63 + 129 <= coreCount st < 2 ^ 63 - 129 ->
  cpuCount st' = cpuCount st + Z.of_nat (length (processorIDs [text])) /\
  coreCount st' = coreCount st + declaredCores [text] /\
  -129 <= declaredCores [text] <= 129.
Proof.
  unfold scanLine, processorIDs, declaredCores, field.
  destruct (Split2_cases text) as [[k E]|[k [v E]]]; rewrite E; simpl;
    intros H Hc Hk; unfold obind in H; repeat case_match; simplify_eq; simpl;
    eqb_subst; simpl in *; try discriminate;
    repeat match goal with
           | H : strconv_ParseInt _ 8 = Some _ |- _ => apply ParseInt8_range in H
           end;
    rewrite ?int_wrap_small by (rewrite ?int_wrap_small by lia; lia);
    repeat split; lia.
Qed.

Lemma scanLines_counters (lines : list string) :
  forall st st',
    scanLines pf st lines = Returned st' ->
    - 2 ^ 63 + 129 * (Z.of_nat (length lines) + 1) <= cpuCount st
      < 2 ^ 63 - 129 * (Z.of_nat (length lines) + 1) ->
    - 2 ^ 63 + 129 * (Z.of_nat (length lines) + 1) <= coreCount st
      < 2 ^ 63 - 129 * (Z.of_nat (length lines) + 1) ->
    cpuCount st' = cpuCount st + Z.of_nat (length (processorIDs lines)) /\
    coreCount st' = coreCount st + declaredCores lines.
Proof.
  induction lines as [|text rest IH]; intros st st' H Hc Hk.
  - simpl in H. injection H as <-. simpl. lia.
  - simpl in H.
    destruct (scanLine pf st text) as [st1|] eqn:E1; simpl in H; [|discriminate].
    rewrite length_cons, Nat2Z.inj_succ in Hc, Hk.
    destruct (scanLine_counters _ _ _ E1) as (Hc1 & Hk1 & Hd); [lia | lia |].
    assert (Hp : 0 <= Z.of_nat (length (processorIDs [text])) <= 1).
    { simpl. destruct (field text) as [[k v]|]; [| simpl; lia].
      destruct (String.eqb k "processor"); simpl; lia. }
    destruct (IH _ _ H) as [Hc2 Hk2]; [lia | lia |].
    rewrite Hc2, Hk2, Hc1, Hk1. clear.
    cbn [processorIDs declaredCores].
    destruct (field text) as [[k v]|]; [| simpl; lia].
    destruct (String.eqb k "processor"); destruct (String.eqb k "cpu cores");
      rewrite ?length_cons, ?Nat2Z.inj_succ; simpl length; lia.
Qed.

End Counters.

(** X7: on a stream with regular lines, and far fewer than 2^55 of them,
    the loop leaves the fallback package counter at the number of
    processor-index lines and the fallback core counter at the sum, over the
    declared-cores lines, of the declared number plus one, a number that
    does not parse as an 8-bit integer counting as zero. *)
Theorem fallback_counters_tally :
  forall (pf : string -> option Z) (c : CPU.t) (lines : list string),
    forallb regular lines = true ->
    Z.of_nat (length lines) < 2 ^ 55 ->
    exists st',
      scanLines pf (scanInit c) lines = Returned st' /\
      cpuCount st' = Z.of_nat (length (processorIDs lines)) /\
      coreCount st' = declaredCores lines.
Proof.
  intros pf c lines Hreg Hlen.
  destruct (scanLines_returns pf lines (scanInit c) Hreg) as [st' E].
  exists st'. split; [exact E |].
  assert (H55 : 2 ^ 63 = 256 * 2 ^ 55) by reflexivity.
  destruct (scanLines_counters pf lines _ _ E) as [Hc Hk]; simpl; try lia.
  simpl in Hc, Hk. split; lia.
Qed.

Lemma fallback_counters_tally_witness :
  forallb regular
    [line "processor" "0"; line "cpu cores" "4"; line "processor" "1";
     line "cpu cores" "many"; line "cpu cores" "200"; line "cpu cores" "-2"] = true /\
  exists st',
    scanLines noFloat (scanInit CPU.zero)
      [line "processor" "0"; line "cpu cores" "4"; line "processor" "1";
       line "cpu cores" "many"; line "cpu cores" "200"; line "cpu cores" "-2"]
      = Returned st' /\
    cpuCount st' = 2 /\ coreCount st' = 6.
Proof.
  split; [reflexivity |].
  exact (fallback_counters_tally noFloat CPU.zero
           [line "processor" "0"; line "cpu cores" "4"; line "processor" "1";
            line "cpu cores" "many"; line "cpu cores" "200"; line "cpu cores" "-2"]
           eq_refl eq_refl).
Defined.

(* ===================================================================== *)
(** ** The model never keeps a run of spaces *)
(* ===================================================================== *)

Lemma noDoubleSpace_cons (c : ascii) (r : string) :
  Ascii.eqb c space = false ->
  noDoubleSpace (String c r) = noDoubleSpace r.
Proof. intros Hc. simpl. rewrite Hc. destruct r; reflexivity. Qed.

Lemma noDoubleSpace_cons2 (a b : ascii) (r : string) :
  noDoubleSpace (String a (String b r))
  = negb (Ascii.eqb a space && Ascii.eqb b space) && noDoubleSpace (String b r).
Proof. reflexivity. Qed.

Lemma ReplaceAll_noDoubleSpace (s : string) :
  noDoubleSpace (reExtraSpace_ReplaceAll s) = true /\
  noDoubleSpace (String space (after_space s)) = true.
Proof.
  induction s as [|c r [IH1 IH2]]; [split; reflexivity |].
  split.
  - simpl reExtraSpace_ReplaceAll. destruct (Ascii.eqb c space) eqn:Ec.
    + exact IH2.
    + rewrite (noDoubleSpace_cons _ _ Ec). exact IH1.
  - simpl after_space. destruct (Ascii.eqb c space) eqn:Ec.
    + exact IH2.
    + rewrite noDoubleSpace_cons2, Ec, andb_false_r.
      rewrite (noDoubleSpace_cons _ _ Ec), IH1. reflexivity.
Qed.

(** Replacing the first dash-space keeps the first character. *)
Lemma Replace_dash1_head (s : string) :
  match s, strings_Replace_dash1 s with
  | String a _, String b _ => a = b
  | EmptyString, EmptyString => True
  | _, _ => False
  end.
Proof.
  destruct s as [|c r]; [exact I |].
  unfold strings_Replace_dash1; fold strings_Replace_dash1.
  destruct (strip_dash_space (String c r)) as [r0|] eqn:E; [| reflexivity].
  apply strip_dash_space_Some in E. now injection E.
Qed.

Lemma Replace_dash1_noDoubleSpace (s : string) :
  noDoubleSpace s = true -> noDoubleSpace (strings_Replace_dash1 s) = true.
Proof.
  induction s as [|c r IH]; [reflexivity |].
  intros H. unfold strings_Replace_dash1; fold strings_Replace_dash1.
  destruct (strip_dash_space (String c r)) as [r0|] eqn:E.
  - apply strip_dash_space_Some in E. injection E as -> ->.
    simpl in H. simpl. destruct r0 as [|b t]; [reflexivity |].
    apply andb_true_iff in H as [_ H]. simpl. exact H.
  - cbn [noDoubleSpace] in H. apply andb_true_iff in H as [Hh Ht].
    specialize (IH Ht). pose proof (Replace_dash1_head r) as Hhead.
    cbn [noDoubleSpace]. rewrite IH, andb_true_r.
    destruct r as [|a r']; destruct (strings_Replace_dash1 _) as [|b t];
      try contradiction; [reflexivity |].
    subst b. exact Hh.
Qed.

Section CleanModel.

Variable pf : string -> option Z.

Lemma scanLine_clean_model (st st' : scanState) (text : string) :
  scanLine pf st text = Returned st' ->
  noDoubleSpace (CPU.Model (cpuFacts st)) = true ->
  noDoubleSpace (CPU.Model (cpuFacts st')) = true.
Proof.
  unfold scanLine.
  destruct (Split2_cases text) as [[k E]|[k [v E]]]; rewrite E; simpl;
    intros H Hm; unfold obind in H; repeat case_match; simplify_eq; simpl; auto.
  apply Replace_dash1_noDoubleSpace, ReplaceAll_noDoubleSpace.
Qed.

Lemma scanLines_clean_model (lines : list string) :
  forall st st',
    scanLines pf st lines = Returned st' ->
    noDoubleSpace (CPU.Model (cpuFacts st)) = true ->
    noDoubleSpace (CPU.Model (cpuFacts st')) = true.
Proof.
  induction lines as [|text rest IH]; intros st st' H Hm; simpl in H.
  - injection H as <-. exact Hm.
  - destruct (scanLine pf st text) as [st1|] eqn:E1; simpl in H; [|discriminate].
    eapply IH; [exact H |]. eapply scanLine_clean_model; eassumption.
Qed.

End CleanModel.

(** X18: if the receiver's model has no two consecutive spaces (an empty
    model, for one), neither has the model the reader returns, whatever the
    model-name lines of a regular stream contain. *)
Theorem getCPUInfo_model_no_double_space :
  forall (pf : string -> option Z) (host : CPUHost) (si : SysInfo),
    regularHost host = true ->
    noDoubleSpace (CPU.Model (siCPU si)) = true ->
    exists si',
      getCPUInfo pf host si = Returned si' /\
      noDoubleSpace (CPU.Model (siCPU si')) = true.
Proof.
  intros pf host si Hreg Hm.
  destruct (getCPUInfo_returns pf host si Hreg) as [si' E].
  exists si'. split; [exact E |].
  unfold getCPUInfo in E.
  destruct (cpuInfoFile host) as [[lines scanErr]|].
  - destruct (scanLines pf _ lines) as [st|] eqn:Es; simpl in E; [| discriminate].
    pose proof (scanLines_clean_model pf _ _ _ Es Hm) as Hst.
    destruct scanErr; injection E as <-; simpl; [exact Hst |].
    destruct (virtualized (siNode si)); exact Hst.
  - injection E as <-. exact Hm.
Qed.

Lemma getCPUInfo_model_no_double_space_witness :
  exists si',
    getCPUInfo noFloat (mkCPUHost 2 (Some ([xeonLine; line "model name" "a   b"], false)))
      (mkSysInfo bareMetal CPU.zero) = Returned si' /\
    noDoubleSpace (CPU.Model (siCPU si')) = true.
Proof.
  exact (getCPUInfo_model_no_double_space noFloat
           (mkCPUHost 2 (Some ([xeonLine; line "model name" "a   b"], false)))
           (mkSysInfo bareMetal CPU.zero) eq_refl eq_refl).
Defined.

(* ===================================================================== *)
(** ** More on the decoding tables *)
(* ===================================================================== *)

(** X8: the port label of the modern query is empty exactly for the codes
    outside the eight known ones, and two codes with the same non-empty
    label are the same code. *)
Theorem glink_port_labels :
  (forall p : Z,
      getPortTypeForGLinkSetting p = ""
      <-> ~ In p [0x00; 0x01; 0x02; 0x03; 0x04; 0x05; 0xef; 0xff]) /\
  (forall p q : Z,
      getPortTypeForGLinkSetting p = getPortTypeForGLinkSetting q ->
      getPortTypeForGLinkSetting p <> "" -> p = q).
Proof.
  split.
  - intros p. unfold getPortTypeForGLinkSetting.
    repeat match goal with
           | |- context [p =? ?k] => destruct (Z.eqb_spec p k) as [->|]
           end;
      (split; [intros H; try discriminate H; simpl; intuition lia
              | intros H; try reflexivity; exfalso; apply H; simpl; intuition lia]).
  - intros p q. unfold getPortTypeForGLinkSetting.
    repeat match goal with
           | |- context [p =? ?k] => destruct (Z.eqb_spec p k) as [->|]
           end;
      repeat match goal with
             | |- context [q =? ?k] => destruct (Z.eqb_spec q k) as [->|]
             end;
      intros H Hne; try reflexivity; try discriminate H; contradiction.
Qed.

Lemma glink_port_labels_witness :
  getPortTypeForGLinkSetting 0x03 = getPortTypeForGLinkSetting 3 /\
  getPortTypeForGLinkSetting 0x03 <> "" /\ 0x03 = 3.
Proof.
  split; [reflexivity |]. split; [discriminate |].
  exact (proj2 glink_port_labels 0x03 3 eq_refl ltac:(discriminate)).
Defined.

(** X9: the legacy port label looks at bits 7 to 11 only, and it is empty
    exactly when none of them is set. *)
Theorem getPortType_port_bits :
  forall supp : Z,
    getPortType supp = getPortType (Z.land supp portMask) /\
    (getPortType supp = "" <-> Z.land supp portMask = 0).
Proof.
  intros supp. split.
  - rewrite !getPortType_portLabel. unfold portLabel, portBits.
    cbn [List.filter fst]. rewrite !Z.land_spec.
    change (Z.testbit portMask 7) with true.
    change (Z.testbit portMask 8) with true.
    change (Z.testbit portMask 9) with true.
    change (Z.testbit portMask 10) with true.
    change (Z.testbit portMask 11) with true.
    rewrite !andb_true_r. reflexivity.
  - rewrite getPortType_portLabel. unfold portLabel, portBits.
    cbn [List.filter fst].
    change portMask
      with (Z.lor (2 ^ 7) (Z.lor (2 ^ 8) (Z.lor (2 ^ 9) (Z.lor (2 ^ 10) (2 ^ 11))))).
    rewrite !Z.land_lor_distr_r, !land_pow2 by lia.
    generalize (Z.testbit supp 7) (Z.testbit supp 8) (Z.testbit supp 9)
               (Z.testbit supp 10) (Z.testbit supp 11).
    intros [] [] [] [] []; vm_compute; split; intros H;
      first [reflexivity | discriminate H].
Qed.

Ltac zero_step supp m :=
  destruct (Z.eqb_spec (Z.land supp m) 0) as [->|];
  [ rewrite ?Z.lor_0_l; cbn [negb]
  | cbn [negb];
    split; [ intros H; discriminate H
           | intros H; repeat (apply Z.lor_eq_0_iff in H as [H ?]); try contradiction;
             repeat match goal with
                    | H' : Z.lor _ _ = 0 |- _ => apply Z.lor_eq_0_iff in H' as [H' ?]
                    end; contradiction ] ].

(** X10: the legacy speed is one of the eight table speeds or 0, and it is
    0 exactly when the mask has none of the bits the eight tests look at. *)
Theorem getMaxSpeed_speed_bits :
  forall supp : Z,
    In (getMaxSpeed supp) [56000; 40000; 20000; 10000; 2500; 1000; 100; 10; 0] /\
    (getMaxSpeed supp = 0 <-> Z.land supp speedMask = 0).
Proof.
  intros supp. split.
  - unfold getMaxSpeed.
    repeat match goal with
           | |- context [Z.land supp ?m >? 0] => destruct (Z.land supp m >? 0)
           end; simpl; intuition lia.
  - unfold getMaxSpeed. rewrite !mask_test by lia.
    change speedMask
      with (Z.lor 0x78000000 (Z.lor 0x07800000 (Z.lor 0x00600000
             (Z.lor 0x001c1000 (Z.lor 0x00008000 (Z.lor 0x00020030
               (Z.lor 0x0000000c 0x00000003))))))).
    rewrite !Z.land_lor_distr_r.
    zero_step supp 0x78000000. zero_step supp 0x07800000.
    zero_step supp 0x00600000. zero_step supp 0x001c1000.
    zero_step supp 0x00008000. zero_step supp 0x00020030.
    zero_step supp 0x0000000c.
    destruct (Z.eqb_spec (Z.land supp 0x00000003) 0) as [->|]; cbn [negb].
    + split; reflexivity.
    + split; [intros H; discriminate H | intros H; contradiction].
Qed.

Ltac mono_step supp extra m :=
  destruct (Z.eqb_spec (Z.lor (Z.land supp m) (Z.land extra m)) 0) as [H|H];
  [ apply Z.lor_eq_0_iff in H as [H _]; rewrite H; clear H; cbn [negb Z.eqb]
  | cbn [negb]; clear H;
    repeat match goal with
           | |- context [Z.land supp ?m' =? 0] =>
               destruct (Z.land supp m' =? 0); cbn [negb]
           end; lia ].

(** X11: a mask with more capability bits never decodes to a lower speed. *)
Theorem getMaxSpeed_monotone :
  forall supp extra : Z,
    getMaxSpeed supp <= getMaxSpeed (Z.lor supp extra).
Proof.
  intros supp extra. unfold getMaxSpeed.
  rewrite !mask_test by lia. rewrite !Z.land_lor_distr_l.
  mono_step supp extra 0x78000000. mono_step supp extra 0x07800000.
  mono_step supp extra 0x00600000. mono_step supp extra 0x001c1000.
  mono_step supp extra 0x00008000. mono_step supp extra 0x00020030.
  mono_step supp extra 0x0000000c. mono_step supp extra 0x00000003.
  lia.
Qed.

(* ===================================================================== *)
(** ** The interface name of a request *)
(* ===================================================================== *)

Lemma fill16_length (n : nat) (s : string) : String.length (fill16 n s) = n.
Proof.
  revert s. induction n as [|n IH]; intros s; [reflexivity |].
  destruct s; simpl; now rewrite IH.
Qed.

Lemma fill16_short (n : nat) (s : string) :
  (String.length s <= n)%nat -> fill16 n s = s +:+ zeros (n - String.length s).
Proof.
  revert s. induction n as [|n IH]; intros s H.
  - destruct s; [reflexivity | simpl in H; lia].
  - destruct s as [|c r]; simpl.
    + f_equal. rewrite (IH "") by (simpl; lia). simpl. now rewrite Nat.sub_0_r.
    + f_equal. apply IH. simpl in H. lia.
Qed.

Lemma fill16_long (p rest : string) :
  fill16 (String.length p) (p +:+ rest) = p.
Proof. induction p as [|c p IH]; simpl; [reflexivity | now rewrite IH]. Qed.

(** X19: the interface name of a request is always 16 bytes; a name of at
    most 15 bytes is followed by zero bytes, and of a longer name only the
    first 16 bytes are sent, without a terminator. *)
Theorem ifr_Name_bounds :
  (forall name, String.length (ifr_Name name) = 16%nat) /\
  (forall name, (String.length name < 16)%nat ->
                ifr_Name name = name +:+ zeros (16 - String.length name)) /\
  (forall p rest, String.length p = 16%nat -> ifr_Name (p +:+ rest) = p).
Proof.
  split; [| split].
  - intros name. apply fill16_length.
  - intros name H. unfold ifr_Name. rewrite fill16_short.
    + rewrite string_app_assoc, string_length_app. simpl String.length.
      replace (16 - (String.length name + 1))%nat
        with (Nat.pred (16 - String.length name)) by lia.
      destruct (16 - String.length name)%nat as [|k] eqn:E; [lia |].
      reflexivity.
    + rewrite string_length_app. simpl. lia.
  - intros p rest H. unfold ifr_Name. rewrite <- H, string_app_assoc.
    apply fill16_long.
Qed.

Lemma ifr_Name_bounds_witness :
  (String.length "eth0" < 16)%nat /\
  ifr_Name "eth0" = "eth0" +:+ zeros 12 /\
  String.length "enp0s31f6veryvery" = 17%nat /\
  ifr_Name "enp0s31f6veryvery" = "enp0s31f6veryver".
Proof.
  split; [simpl; lia |].
  split; [exact (proj1 (proj2 ifr_Name_bounds) "eth0" ltac:(simpl; lia)) |].
  split; [reflexivity |].
  exact (proj2 (proj2 ifr_Name_bounds) "enp0s31f6veryver" "y" eq_refl).
Defined.

(* ===================================================================== *)
(** ** More on the link inspector *)
(* ===================================================================== *)

Lemma closeFd_head (fd : Z) (open : list Z) : closeFd fd (fd :: open) = open.
Proof. simpl. now rewrite Z.eqb_refl. Qed.

Lemma path_Base_last (dir b : string) :
  b <> "" -> has_slash b = false -> path_Base (dir +:+ "/" +:+ b) = b.
Proof.
  intros Hne Hns.
  assert (Htrim : forall s, strings_TrimRight_slash (s +:+ b) = s +:+ b).
  { assert (Hb : strings_TrimRight_slash b = b).
    { clear Hne. induction b as [|c r IH]; [reflexivity |].
      simpl in Hns. apply orb_false_iff in Hns as [Hc Hr].
      simpl. rewrite (IH Hr). destruct r; [now rewrite Hc | reflexivity]. }
    intros s. induction s as [|c s IH]; [exact Hb |].
    simpl. rewrite IH. destruct (s +:+ b) eqn:E; [| reflexivity].
    destruct s; simpl in E; [contradiction | discriminate]. }
  assert (Hslash : forall s, has_slash (s +:+ String "/" b) = true).
  { intros s. induction s as [|x s IHs]; simpl; [reflexivity |].
    rewrite IHs. apply orb_true_r. }
  assert (Hlast : forall s, after_last_slash (s +:+ String "/" b) = b).
  { intros s. induction s as [|c s IH].
    - simpl. now rewrite Hns.
    - simpl. now rewrite Hslash, IH. }
  unfold path_Base. change ("/" +:+ b) with (String "/" b).
  destruct (dir +:+ String "/" b) eqn:E.
  - destruct dir; discriminate E.
  - rewrite <- E.
    replace (dir +:+ String "/" b) with ((dir +:+ "/") +:+ b)
      by (rewrite string_app_assoc; reflexivity).
    rewrite Htrim, string_app_assoc. change ("/" +:+ b) with (String "/" b).
    rewrite Hlast. destruct b; [contradiction | reflexivity].
Qed.

Section MoreInspector.

Context {World : Type} (os : OS World).

(** The legacy query gives mask 0 without a socket and after an ioctl that
    fails. *)
Lemma getSupported_failure (w : World) (name : string) :
  match syscall_Socket os w with
  | (None, _) => True
  | (Some fd, w1) =>
      fst (fst (ioctl_GSET os w1 fd (ifr_Name name)
                  (ethtool_cmd.setCmd GSET ethtool_cmd.zero))) <> 0
  end ->
  fst (getSupported os w name) = 0.
Proof.
  unfold getSupported. destruct (syscall_Socket os w) as [[fd|] w1]; [| reflexivity].
  destruct (ioctl_GSET os w1 fd _ _) as [[errno e] w2]. simpl.
  intros H. destruct (Z.eqb_spec errno 0); [contradiction | reflexivity].
Qed.

(** Everything one iteration stores in the device it appends. *)
Lemma deviceFacts_fields (w : World) (name target : string) :
  os_Readlink os (devicePath name) = Some target ->
  exists d w',
    deviceFacts os w name = Returned (Some d, w') /\
    NetworkDevice.Name d = name /\
    NetworkDevice.MACAddress d = slurpFile os (path_Join [devicePath name; "address"]) /\
    NetworkDevice.Driver d
    = match os_Readlink os (path_Join [devicePath name; "device"; "driver"]) with
      | Some driver => path_Base driver
      | None => ""
      end /\
    match getSupportedWithEthtoolGLinkSetting os w name with
    | ((Some g, None), w1) =>
        w' = w1 /\
        NetworkDevice.Port d = getPortTypeForGLinkSetting (ethtoolLinkSettingType.Port g) /\
        NetworkDevice.Speed d = ethtoolLinkSettingType.Speed g /\
        NetworkDevice.IpAddresses d = lookupAddresses os name
    | ((_, Some _), w1) =>
        w' = snd (getSupported os w1 name) /\
        NetworkDevice.Port d = getPortType (fst (getSupported os w1 name)) /\
        NetworkDevice.Speed d = getMaxSpeed (fst (getSupported os w1 name)) /\
        NetworkDevice.IpAddresses d = []
    | ((None, None), _) => False
    end.
Proof.
  intros Hlink. unfold deviceFacts. unfold devicePath in *. rewrite Hlink.
  destruct (glink_cases os w name) as [w1 [[r E] | [e E]]]; rewrite E; simpl.
  - match goal with
    | |- context [os_Readlink os ?p] => destruct (os_Readlink os p)
    end; eexists _, _; (split; [reflexivity |]); simpl;
      unfold lookupAddresses, Interface_Addrs;
      destruct (net_InterfaceByName os name); repeat split; reflexivity.
  - destruct (getSupported os w1 name) as [supp w2]; simpl.
    match goal with
    | |- context [os_Readlink os ?p] => destruct (os_Readlink os p)
    end; eexists _, _; (split; [reflexivity |]); repeat split; reflexivity.
Qed.

Lemma glink_success (w w1 w2 w3 : World) (name : string) (fd : Z)
    (r1 r2 : ethtoolLinkSettingType.t) :
  syscall_Socket os w = (Some fd, w1) ->
  ioctl_GLINKSETTINGS os w1 fd (ifr_Name name)
    (ethtoolLinkSettingType.setCmd GLINKSETTING ethtoolLinkSettingType.zero)
    = ((0, r1), w2) ->
  ethtoolLinkSettingType.LinkModeMasksNwords r1 < 0 ->
  ethtoolLinkSettingType.Cmd r1 = GLINKSETTING ->
  ioctl_GLINKSETTINGS os w2 fd (ifr_Name name)
    (ethtoolLinkSettingType.setLinkModeMasksNwords
       (int8_wrap (- ethtoolLinkSettingType.LinkModeMasksNwords r1)) r1)
    = ((0, r2), w3) ->
  getSupportedWithEthtoolGLinkSetting os w name
  = ((Some r2, None), syscall_Close os w3 fd).
Proof.
  intros Hsock H1 Hneg Hcmd H2.
  unfold getSupportedWithEthtoolGLinkSetting. rewrite Hsock, H1. simpl.
  rewrite Hcmd. simpl.
  destruct (Z.leb_spec 0 (ethtoolLinkSettingType.LinkModeMasksNwords r1)); [lia |].
  simpl. rewrite H2. reflexivity.
Qed.

Section Descriptors.

(** A view of the world as the list of its open descriptors. *)
Variable opened : World -> list Z.
Hypothesis socket_opens :
  forall w fd w', syscall_Socket os w = (Some fd, w') -> opened w' = fd :: opened w.
Hypothesis socket_fails :
  forall w w', syscall_Socket os w = (None, w') -> opened w' = opened w.
Hypothesis close_closes :
  forall w fd, opened (syscall_Close os w fd) = closeFd fd (opened w).
Hypothesis glink_keeps :
  forall w fd n req, opened (snd (ioctl_GLINKSETTINGS os w fd n req)) = opened w.
Hypothesis gset_keeps :
  forall w fd n req, opened (snd (ioctl_GSET os w fd n req)) = opened w.

Lemma getSupported_closes (w : World) (name : string) :
  opened (snd (getSupported os w name)) = opened w.
Proof.
  unfold getSupported.
  destruct (syscall_Socket os w) as [[fd|] w1] eqn:Es; simpl.
  - pose proof (gset_keeps w1 fd (ifr_Name name)
                  (ethtool_cmd.setCmd GSET ethtool_cmd.zero)) as Hk.
    destruct (ioctl_GSET os w1 fd _ _) as [[errno e] w2]. simpl in *.
    destruct (errno =? 0); simpl;
      rewrite close_closes, Hk, (socket_opens _ _ _ Es); apply closeFd_head.
  - exact (socket_fails _ _ Es).
Qed.

Lemma glink_closes (w : World) (name : string) :
  opened (snd (getSupportedWithEthtoolGLinkSetting os w name)) = opened w.
Proof.
  unfold getSupportedWithEthtoolGLinkSetting.
  destruct (syscall_Socket os w) as [[fd|] w1] eqn:Es; simpl.
  - pose proof (socket_opens _ _ _ Es) as Ho.
    match goal with
    | |- context [ioctl_GLINKSETTINGS os w1 fd ?n ?req] =>
        pose proof (glink_keeps w1 fd n req) as Hk1;
        destruct (ioctl_GLINKSETTINGS os w1 fd n req) as [[errno r1] w2]
    end.
    simpl in *. destruct (errno =? 0).
    + destruct (_ || _); simpl.
      * rewrite close_closes, Hk1, Ho. apply closeFd_head.
      * match goal with
        | |- context [ioctl_GLINKSETTINGS os w2 fd ?n ?req] =>
            pose proof (glink_keeps w2 fd n req) as Hk2;
            destruct (ioctl_GLINKSETTINGS os w2 fd n req) as [[errno2 r2] w3]
        end.
        simpl in *. destruct (errno2 =? 0); simpl;
          rewrite close_closes, Hk2, Hk1, Ho; apply closeFd_head.
    + simpl. rewrite close_closes, Hk1, Ho. apply closeFd_head.
  - exact (socket_fails _ _ Es).
Qed.

Lemma deviceFacts_closes (w : World) (name : string) :
  exists r, deviceFacts os w name = Returned r /\ opened (snd r) = opened w.
Proof.
  pose proof (deviceFacts_spec os w name) as Hs.
  destruct (os_Readlink os (devicePath name)) as [target|] eqn:El.
  - destruct (deviceFacts_fields w name target El) as (d & w' & E & _ & _ & _ & Hg).
    exists (Some d, w'). split; [exact E |]. simpl.
    pose proof (glink_closes w name) as Hc.
    destruct (getSupportedWithEthtoolGLinkSetting os w name) as [[[g|] [e|]] w1];
      simpl in *.
    + destruct Hg as (-> & _). rewrite getSupported_closes. exact Hc.
    + destruct Hg as (-> & _). exact Hc.
    + destruct Hg as (-> & _). rewrite getSupported_closes. exact Hc.
    + contradiction.
  - exists (None, w). split; [exact Hs | reflexivity].
Qed.

Lemma enumerate_closes (devices : list string) :
  forall w network,
  exists r, enumerate os w devices network = Returned r /\ opened (snd r) = opened w.
Proof.
  induction devices as [|name rest IH]; intros w network; simpl.
  - eexists. split; reflexivity.
  - destruct (deviceFacts_closes w name) as ([[d|] w1] & E & Ho); rewrite E; simpl.
    + destruct (IH w1 (network ++ [d])%list) as (r & Er & Hr).
      exists r. split; [exact Er |]. simpl in Ho. congruence.
    + destruct (IH w1 network) as (r & Er & Hr).
      exists r. split; [exact Er |]. simpl in Ho. congruence.
Qed.

Lemma getNetworkInfo_closes (w : World) (network : option (list NetworkDevice.t)) :
  exists r, getNetworkInfo os w network = Returned r /\ opened (snd r) = opened w.
Proof.
  unfold getNetworkInfo.
  destruct (ioutil_ReadDir os sysClassNet) as [devices|].
  - destruct (enumerate_closes devices w []) as (r & E & Ho).
    rewrite E. simpl. eexists. split; [reflexivity | exact Ho].
  - eexists. split; reflexivity.
Qed.

End Descriptors.

End MoreInspector.

(** X1: the node information has no influence on the CPU facts: with the
    same CPU record in the receiver, the reader returns the same CPU facts
    on a bare-metal host, on a guest and without a host name, and panics on
    the one when it panics on the other. *)
Theorem getCPUInfo_node_irrelevant :
  forall (pf : string -> option Z) (host : CPUHost) (n1 n2 : Node.t) (c : CPU.t),
    (forall s1, getCPUInfo pf host (mkSysInfo n1 c) = Returned s1 ->
                exists s2, getCPUInfo pf host (mkSysInfo n2 c) = Returned s2 /\
                           siCPU s2 = siCPU s1 /\ siNode s2 = n2) /\
    (forall p, getCPUInfo pf host (mkSysInfo n1 c) = Panicked p ->
               getCPUInfo pf host (mkSysInfo n2 c) = Panicked p).
Proof.
  intros pf host n1 n2 c. unfold getCPUInfo. simpl.
  destruct (cpuInfoFile host) as [[lines scanErr]|].
  - destruct (scanLines pf _ lines) as [st|]; simpl.
    + destruct scanErr.
      * split; [| discriminate]. intros s1 [= <-]. eexists. repeat split.
      * split; [| discriminate]. intros s1 [= <-].
        destruct (virtualized n1), (virtualized n2); eexists; repeat split.
    + split; [discriminate | intros q H; exact H].
  - split; [| discriminate]. intros s1 [= <-]. eexists. repeat split.
Qed.

Lemma getCPUInfo_node_irrelevant_witness :
  exists s2,
    getCPUInfo noFloat (mkCPUHost 4 (Some (repeatedBlocks, false)))
      (mkSysInfo guest CPU.zero) = Returned s2 /\
    siCPU s2 = CPU.mk "" "" 0 0 1 1 4 "".
Proof.
  destruct (proj1 (getCPUInfo_node_irrelevant noFloat
                     (mkCPUHost 4 (Some (repeatedBlocks, false)))
                     bareMetal guest CPU.zero)
              (mkSysInfo bareMetal (CPU.mk "" "" 0 0 1 1 4 "")) eq_refl)
    as (s2 & E & Hc & _).
  exists s2. split; [exact E | exact Hc].
Defined.

(** X12: when the modern query ends in an error and the legacy query has
    no socket or fails in its ioctl, the device is still returned, under its
    name, with an empty port, speed 0 and no address. *)
Theorem both_queries_fail :
  forall (World : Type) (os : OS World) (w w1 : World) (name target : string)
         (g : option ethtoolLinkSettingType.t) (e : error),
    os_Readlink os (devicePath name) = Some target ->
    getSupportedWithEthtoolGLinkSetting os w name = ((g, Some e), w1) ->
    match syscall_Socket os w1 with
    | (None, _) => True
    | (Some fd, w2) =>
        fst (fst (ioctl_GSET os w2 fd (ifr_Name name)
                    (ethtool_cmd.setCmd GSET ethtool_cmd.zero))) <> 0
    end ->
    exists d w',
      deviceFacts os w name = Returned (Some d, w') /\
      NetworkDevice.Name d = name /\
      NetworkDevice.Port d = "" /\ NetworkDevice.Speed d = 0 /\
      NetworkDevice.IpAddresses d = [].
Proof.
  intros World os w w1 name target g e Hlink Hg Hlegacy.
  destruct (deviceFacts_fields os w name target Hlink)
    as (d & w' & E & Hn & _ & _ & Hq).
  rewrite Hg in Hq. destruct g; destruct Hq as (_ & Hp & Hs & Ha);
    rewrite (getSupported_failure os w1 name Hlegacy) in Hp, Hs;
    exists d, w'; repeat split; assumption.
Qed.

Lemma both_queries_fail_witness :
  exists d w',
    deviceFacts (testOS [eth1]) 0%nat "eth1" = Returned (Some d, w') /\
    NetworkDevice.Name d = "eth1" /\
    NetworkDevice.Port d = "" /\ NetworkDevice.Speed d = 0 /\
    NetworkDevice.IpAddresses d = [].
Proof.
  refine (both_queries_fail nat (testOS [eth1]) 0%nat 1%nat "eth1"
            "../../devices/pci0000:00/0000:00:04.0/net/eth1"
            None (ErrGLinkSetting 95) eq_refl eq_refl _).
  simpl. discriminate.
Defined.

(** X13: when the handshake of the modern query answers with a negative
    word count between -127 and -1 and the modern command code, and the
    second call, made with the count negated, succeeds, the device gets the
    label of the port code and the speed of the settings returned, and the
    addresses of the interface lookup; the legacy query is not made. *)
Theorem modern_query_success :
  forall (World : Type) (os : OS World) (w w1 w2 w3 : World) (name target : string)
         (fd : Z) (r1 r2 : ethtoolLinkSettingType.t),
    os_Readlink os (devicePath name) = Some target ->
    syscall_Socket os w = (Some fd, w1) ->
    ioctl_GLINKSETTINGS os w1 fd (ifr_Name name)
      (ethtoolLinkSettingType.setCmd GLINKSETTING ethtoolLinkSettingType.zero)
      = ((0, r1), w2) ->
    -127 <= ethtoolLinkSettingType.LinkModeMasksNwords r1 < 0 ->
    ethtoolLinkSettingType.Cmd r1 = GLINKSETTING ->
    ioctl_GLINKSETTINGS os w2 fd (ifr_Name name)
      (ethtoolLinkSettingType.setLinkModeMasksNwords
         (- ethtoolLinkSettingType.LinkModeMasksNwords r1) r1)
      = ((0, r2), w3) ->
    exists d,
      deviceFacts os w name = Returned (Some d, syscall_Close os w3 fd) /\
      NetworkDevice.Port d = getPortTypeForGLinkSetting (ethtoolLinkSettingType.Port r2) /\
      NetworkDevice.Speed d = ethtoolLinkSettingType.Speed r2 /\
      NetworkDevice.IpAddresses d = lookupAddresses os name.
Proof.
  intros World os w w1 w2 w3 name target fd r1 r2 Hlink Hsock H1 Hn Hcmd H2.
  assert (Hneg : int8_wrap (- ethtoolLinkSettingType.LinkModeMasksNwords r1)
                 = - ethtoolLinkSettingType.LinkModeMasksNwords r1).
  { unfold int8_wrap. rewrite Z.mod_small; lia. }
  rewrite <- Hneg in H2.
  pose proof (glink_success os w w1 w2 w3 name fd r1 r2 Hsock H1
                ltac:(lia) Hcmd H2) as Hg.
  destruct (deviceFacts_fields os w name target Hlink)
    as (d & w' & E & _ & _ & _ & Hq).
  rewrite Hg in Hq. destruct Hq as (-> & Hp & Hs & Ha).
  exists d. repeat split; assumption.
Qed.

Lemma modern_query_success_witness :
  exists d,
    deviceFacts (testOS [eth2]) 0%nat "eth2" = Returned (Some d, 1%nat) /\
    NetworkDevice.Port d = "fibre" /\
    NetworkDevice.Speed d = 25000 /\
    NetworkDevice.IpAddresses d = ["192.0.2.10/24"; "fe80::1/64"].
Proof.
  refine (modern_query_success nat (testOS [eth2]) 0%nat 1%nat 1%nat 1%nat "eth2"
            "../../devices/pci0000:00/0000:00:05.0/net/eth2" 3
            (ethtoolLinkSettingType.setLinkModeMasksNwords (-3)
               (ethtoolLinkSettingType.setCmd GLINKSETTING ethtoolLinkSettingType.zero))
            (ethtoolLinkSettingType.mk GLINKSETTING 25000 1 3 0 1 0 0 0 3 0
               [0; 0; 0] [0; 0; 0; 0; 0; 0; 0])
            eq_refl eq_refl eq_refl _ eq_refl eq_refl).
  simpl. lia.
Defined.

(** X14: every error of the modern query, be it the socket, the first
    call, the handshake or the second call, sends the device to the legacy
    query made in the world the modern query left, and leaves it without
    addresses. *)
Theorem modern_error_uses_legacy :
  forall (World : Type) (os : OS World) (w w1 : World) (name target : string)
         (g : option ethtoolLinkSettingType.t) (e : error),
    os_Readlink os (devicePath name) = Some target ->
    getSupportedWithEthtoolGLinkSetting os w name = ((g, Some e), w1) ->
    exists d,
      deviceFacts os w name = Returned (Some d, snd (getSupported os w1 name)) /\
      NetworkDevice.Port d = getPortType (fst (getSupported os w1 name)) /\
      NetworkDevice.Speed d = getMaxSpeed (fst (getSupported os w1 name)) /\
      NetworkDevice.IpAddresses d = [].
Proof.
  intros World os w w1 name target g e Hlink Hg.
  destruct (deviceFacts_fields os w name target Hlink)
    as (d & w' & E & _ & _ & _ & Hq).
  rewrite Hg in Hq. destruct g; destruct Hq as (-> & Hp & Hs & Ha);
    exists d; repeat split; assumption.
Qed.

Lemma modern_error_uses_legacy_witness :
  exists d,
    deviceFacts (testOS [eth0]) 0%nat "eth0" = Returned (Some d, 2%nat) /\
    NetworkDevice.Port d = "tp" /\ NetworkDevice.Speed d = 10000 /\
    NetworkDevice.IpAddresses d = [].
Proof.
  exact (modern_error_uses_legacy nat (testOS [eth0]) 0%nat 1%nat "eth0"
           "../../devices/pci0000:00/0000:00:03.0/net/eth0"
           None (ErrGLinkSetting 95) eq_refl eq_refl).
Defined.

(** X15: the driver of a device is empty when the driver link under the
    device's directory cannot be read, and otherwise the last element of
    the link's target; the MAC address is what the address file holds. *)
Theorem driver_is_link_basename :
  forall (World : Type) (os : OS World) (w : World) (name target : string),
    os_Readlink os (devicePath name) = Some target ->
    exists d w',
      deviceFacts os w name = Returned (Some d, w') /\
      NetworkDevice.MACAddress d
      = slurpFile os (path_Join [devicePath name; "address"]) /\
      (os_Readlink os (path_Join [devicePath name; "device"; "driver"]) = None ->
       NetworkDevice.Driver d = "") /\
      (forall dir drv,
          os_Readlink os (path_Join [devicePath name; "device"; "driver"])
          = Some (dir +:+ "/" +:+ drv) ->
          drv <> "" -> has_slash drv = false ->
          NetworkDevice.Driver d = drv).
Proof.
  intros World os w name target Hlink.
  destruct (deviceFacts_fields os w name target Hlink)
    as (d & w' & E & _ & Hm & Hd & _).
  exists d, w'. split; [exact E |]. split; [exact Hm |]. split.
  - intros Hnone. rewrite Hnone in Hd. exact Hd.
  - intros dir drv Hsome Hne Hns. rewrite Hsome in Hd.
    rewrite Hd. apply path_Base_last; assumption.
Qed.

Lemma driver_is_link_basename_witness :
  exists d w',
    deviceFacts (testOS [eth0]) 0%nat "eth0" = Returned (Some d, w') /\
    NetworkDevice.MACAddress d = "52:54:00:12:34:56" /\
    NetworkDevice.Driver d = "e1000".
Proof.
  destruct (driver_is_link_basename nat (testOS [eth0]) 0%nat "eth0"
              "../../devices/pci0000:00/0000:00:03.0/net/eth0" eq_refl)
    as (d & w' & E & Hm & _ & Hd).
  exists d, w'. split; [exact E |]. split; [exact Hm |].
  apply (Hd "../../../../bus/pci/drivers" "e1000"); [reflexivity | discriminate | reflexivity].
Defined.

(** X16: when the directory lists every name once, every device name
    occurs once among the facts; the facts are never more than the
    entries, and every fact carries the name of an entry. *)
Theorem device_names_unique :
  forall (World : Type) (os : OS World) (w : World)
         (network : option (list NetworkDevice.t)) (devices : list string),
    ioutil_ReadDir os sysClassNet = Some devices ->
    List.NoDup devices ->
    exists facts w',
      getNetworkInfo os w network = Returned (Some facts, w') /\
      List.NoDup (List.map NetworkDevice.Name facts) /\
      (length facts <= length devices)%nat /\
      (forall n, In n (List.map NetworkDevice.Name facts) -> In n devices).
Proof.
  intros World os w network devices Hdir Hnd.
  unfold getNetworkInfo. rewrite Hdir.
  destruct (enumerate_spec os devices w []) as (facts & w' & E & Hnames).
  rewrite E. simpl. exists facts, w'. split; [reflexivity |].
  split; [| split].
  - rewrite Hnames. apply List.NoDup_filter. exact Hnd.
  - rewrite <- (List.length_map NetworkDevice.Name facts), Hnames.
    apply List.filter_length_le.
  - intros n Hin. rewrite Hnames in Hin. apply List.filter_In in Hin. tauto.
Qed.

Lemma device_names_unique_witness :
  exists facts w',
    getNetworkInfo (testOS [bonding_masters; eth0; eth1; eth2; eth3]) 0%nat None
      = Returned (Some facts, w') /\
    List.NoDup (List.map NetworkDevice.Name facts) /\ (length facts <= 5)%nat.
Proof.
  destruct (device_names_unique nat (testOS [bonding_masters; eth0; eth1; eth2; eth3])
              0%nat None ["bonding_masters"; "eth0"; "eth1"; "eth2"; "eth3"] eq_refl)
    as (facts & w' & E & Hnd & Hlen & _).
  - repeat constructor; simpl; intuition discriminate.
  - exists facts, w'. split; [exact E |]. split; [exact Hnd | exact Hlen].
Defined.

(** X17: the enumeration leaks no descriptor.  In every world where a
    socket call that succeeds opens the descriptor it returns, a close
    closes it, and the ioctls and a failed socket call open or close
    nothing, the descriptors open after the enumeration are those that were
    open before it. *)
Theorem no_descriptor_leak :
  forall (World : Type) (os : OS World) (opened : World -> list Z),
    (forall w fd w', syscall_Socket os w = (Some fd, w') -> opened w' = fd :: opened w) ->
    (forall w w', syscall_Socket os w = (None, w') -> opened w' = opened w) ->
    (forall w fd, opened (syscall_Close os w fd) = closeFd fd (opened w)) ->
    (forall w fd n req, opened (snd (ioctl_GLINKSETTINGS os w fd n req)) = opened w) ->
    (forall w fd n req, opened (snd (ioctl_GSET os w fd n req)) = opened w) ->
    forall (w : World) (network : option (list NetworkDevice.t)),
    exists r,
      getNetworkInfo os w network = Returned r /\ opened (snd r) = opened w.
Proof.
  intros World os opened H1 H2 H3 H4 H5 w network.
  exact (getNetworkInfo_closes os opened H1 H2 H3 H4 H5 w network).
Qed.

Lemma no_descriptor_leak_witness :
  exists r,
    getNetworkInfo (fdOS [bonding_masters; eth0; eth1; eth2; eth3]) [0; 1; 2] None
      = Returned r /\
    snd r = [0; 1; 2].
Proof.
  refine (no_descriptor_leak (list Z) (fdOS [bonding_masters; eth0; eth1; eth2; eth3])
            (fun w => w) _ _ _ _ _ [0; 1; 2] None).
  - intros w fd w' H. simpl in H. injection H as <- <-. reflexivity.
  - intros w w' H. simpl in H. discriminate H.
  - intros w fd. reflexivity.
  - intros w fd n req. reflexivity.
  - intros w fd n req. reflexivity.
Defined.

(** X20: the negation of the handshake's word count is an 8-bit negation:
    a count of -128 stays -128, and the second call of the modern query is
    made with that count; what it answers decides the result. *)
Theorem handshake_min_word_count :
  forall (World : Type) (os : OS World) (w w1 w2 : World) (name : string)
         (fd : Z) (r1 : ethtoolLinkSettingType.t),
    syscall_Socket os w = (Some fd, w1) ->
    ioctl_GLINKSETTINGS os w1 fd (ifr_Name name)
      (ethtoolLinkSettingType.setCmd GLINKSETTING ethtoolLinkSettingType.zero)
      = ((0, r1), w2) ->
    ethtoolLinkSettingType.LinkModeMasksNwords r1 = -128 ->
    ethtoolLinkSettingType.Cmd r1 = GLINKSETTING ->
    getSupportedWithEthtoolGLinkSetting os w name
    = (let '((errno2, r2), w3) :=
         ioctl_GLINKSETTINGS os w2 fd (ifr_Name name)
           (ethtoolLinkSettingType.setLinkModeMasksNwords (-128) r1) in
       if errno2 =? 0
       then ((Some r2, None), syscall_Close os w3 fd)
       else ((None, Some (ErrGLinkSettingMask errno2)), syscall_Close os w3 fd)).
Proof.
  intros World os w w1 w2 name fd r1 Hsock H1 Hn Hcmd.
  unfold getSupportedWithEthtoolGLinkSetting. rewrite Hsock, H1. simpl.
  rewrite Hn, Hcmd. reflexivity.
Qed.

Lemma handshake_min_word_count_witness :
  fst (getSupportedWithEthtoolGLinkSetting (testOS [eth5]) 0%nat "eth5")
  = (None, Some (ErrGLinkSettingMask 22)).
Proof.
  rewrite (handshake_min_word_count nat (testOS [eth5]) 0%nat 1%nat 1%nat "eth5" 3
             (ethtoolLinkSettingType.setLinkModeMasksNwords (-128)
                (ethtoolLinkSettingType.setCmd GLINKSETTING ethtoolLinkSettingType.zero))
             eq_refl eq_refl eq_refl eq_refl).
  reflexivity.
Defined.

Section Panics.

Variable pf : string -> option Z.

Lemma scanLine_panic (st : scanState) (text : string) (p : panic) :
  scanLine pf st text = Panicked p ->
  p = IndexOutOfRange 1 1 /\ recognised text = true /\
  reTwoColumns_Split2 text = [text].
Proof.
  unfold scanLine, recognised.
  destruct (Split2_cases text) as [[k E]|[k [v E]]].
  - assert (Hk : k = text).
    { revert E. unfold reTwoColumns_Split2. destruct text as [|c r].
      - now intros [= <-].
      - destruct (reTwoColumns_find (String c r)) as [[a b]|]; [discriminate |].
        now intros [= <-]. }
    subst k. rewrite E. simpl.
    intros H; unfold obind in H; repeat case_match; simplify_eq; simpl;
      rewrite ?orb_true_r; auto.
  - rewrite E. simpl. intros H. exfalso. unfold obind in H.
    repeat case_match; simplify_eq.
    match goal with
    | H : reCacheSize_FindStringSubmatch _ = Some _ |- _ =>
        apply FindStringSubmatch_Some in H as (d & -> & _)
    end.
    discriminate.
Qed.

Lemma scanLines_panic (lines : list string) :
  forall st p,
    scanLines pf st lines = Panicked p ->
    p = IndexOutOfRange 1 1 /\
    exists text, In text lines /\ recognised text = true /\
                 reTwoColumns_Split2 text = [text].
Proof.
  induction lines as [|text rest IH]; intros st p H; simpl in H; [discriminate |].
  destruct (scanLine pf st text) as [st1|q] eqn:E1; simpl in H.
  - destruct (IH _ _ H) as (Hp & t & Hin & Ht).
    split; [exact Hp |]. exists t. split; [right; exact Hin | exact Ht].
  - injection H as <-. destruct (scanLine_panic _ _ _ E1) as (Hp & Ht).
    split; [exact Hp |]. exists text. split; [left; reflexivity | exact Ht].
Qed.

End Panics.

(** X21: the reader can panic in one way only: with an index out of range
    on a stream that was opened and has a line that is, in full, one of the
    recognised keys, without a separator. *)
Theorem getCPUInfo_panic_cause :
  forall (pf : string -> option Z) (host : CPUHost) (si : SysInfo) (p : panic),
    getCPUInfo pf host si = Panicked p ->
    p = IndexOutOfRange 1 1 /\
    exists lines scanErr text,
      cpuInfoFile host = Some (lines, scanErr) /\
      In text lines /\ recognised text = true /\
      reTwoColumns_Split2 text = [text].
Proof.
  intros pf host si p. unfold getCPUInfo.
  destruct (cpuInfoFile host) as [[lines scanErr]|]; [| discriminate].
  destruct (scanLines pf _ lines) as [st|q] eqn:Es; simpl.
  - destruct scanErr; discriminate.
  - intros [= <-]. destruct (scanLines_panic pf _ _ _ Es) as (Hp & text & Hin & Ht).
    split; [exact Hp |]. exists lines, scanErr, text.
    split; [reflexivity |]. split; [exact Hin | exact Ht].
Qed.

Lemma getCPUInfo_panic_cause_witness :
  exists text,
    In text [line "processor" "0"; "flags"; line "core id" "0"] /\
    recognised text = true.
Proof.
  destruct (getCPUInfo_panic_cause noFloat
              (mkCPUHost 1 (Some ([line "processor" "0"; "flags"; line "core id" "0"], false)))
              (mkSysInfo bareMetal CPU.zero) (IndexOutOfRange 1 1) eq_refl)
    as (_ & lines & scanErr & text & Hfile & Hin & Hrec & _).
  injection Hfile as <- _.
  exists text. split; [exact Hin | exact Hrec].
Defined.
